(** * The generate relay (server/index.js): retry, fallback and extraction

    A shallow embedding of the Express handler [POST /api/generate] and of
    [fetchWithRetry].  JavaScript numbers are IEEE binary64 values, so the
    backoff delay is a primitive [float]; JSON documents are a tree of
    [value]s; the network, the timer and the Google auth client are effects
    recorded in a trace, their outcomes being given by a [World].

    [prepareGoogleCreds] (credentials.js) is modelled on its own, over the
    environment variables and files it touches.

    Not modelled: [console.log] / [console.error] calls (they never change
    control flow), and the Express routing, body parsing, [/health] route and
    [app.listen] around the handler. *)

From Stdlib Require Import List String Ascii ZArith Bool Lia.
From Stdlib Require Import Floats.PrimFloat.
From Stdlib Require Import DecimalString.
Import ListNotations.

Set Warnings "-inexact-float,-register-all".
Local Open Scope string_scope.

(** ** JavaScript values and exceptions *)

Module JS.

(** The values a JSON document (or [undefined]) can hold.  An object keeps
    its fields in source order; a lookup takes the first match. *)
Inductive value : Type :=
| VUndefined
| VNull
| VBool (b : bool)
| VNum (n : float)
| VStr (s : string)
| VArr (elems : list value)
| VObj (fields : list (string * value)).

(** A thrown [Error] object: its [name] and [message]. *)
Record Error : Type := mkError { err_name : string; err_message : string }.

Inductive result (A : Type) : Type :=
| Ok (a : A)
| Throw (e : Error).
Arguments Ok {A} a.
Arguments Throw {A} e.

Definition rbind {A B} (r : result A) (k : A -> result B) : result B :=
  match r with Ok a => k a | Throw e => Throw e end.

Definition TypeError (msg : string) : Error := mkError "TypeError" msg.

(** [Error.prototype.toString]. *)
Definition err_toString (e : Error) : string :=
  if (err_message e =? "")%string then err_name e
  else if (err_name e =? "")%string then err_message e
  else err_name e ++ ": " ++ err_message e.

(** [ToBoolean]: the falsy values are [undefined], [null], [false], the
    zeros, [NaN] and the empty string. *)
Definition truthy (v : value) : bool :=
  match v with
  | VUndefined | VNull => false
  | VBool b => b
  | VNum n => negb (PrimFloat.eqb n 0 || negb (PrimFloat.eqb n n))
  | VStr s => negb (s =? "")%string
  | VArr _ | VObj _ => true
  end.

(** [a || b] on values (both operands are pure here). *)
Definition or_else (a b : value) : value := if truthy a then a else b.

Definition nullish (v : value) : bool :=
  match v with VUndefined | VNull => true | _ => false end.

(** A property key: a name ([.candidates]) or an index ([[0]]). *)
Inductive key : Type :=
| KName (name : string)
| KIndex (i : nat).

Fixpoint lookup (k : string) (fields : list (string * value)) : option value :=
  match fields with
  | [] => None
  | (k', v) :: rest => if (k' =? k)%string then Some v else lookup k rest
  end.

Definition index_name (i : nat) : string := NilZero.string_of_uint (Nat.to_uint i).

Definition field (k : string) (fields : list (string * value)) : value :=
  match lookup k fields with Some v => v | None => VUndefined end.

(** [Get v k] reads the own data property [k] of a value that is neither
    [undefined] nor [null].  The relay only reads [prompt], [token],
    [candidates], [content], [parts], [text] and index [0], none of which is
    a member of a built-in prototype, so inherited members ([length],
    methods) are left out. *)
Definition Get (v : value) (k : key) : value :=
  match v, k with
  | VObj fs, KName n => field n fs
  | VObj fs, KIndex i => field (index_name i) fs
  | VArr l, KIndex i => nth i l VUndefined
  | VStr s, KIndex i =>
      match String.get i s with
      | Some c => VStr (String c EmptyString)
      | None => VUndefined
      end
  | _, _ => VUndefined
  end.

(** [v?.k] and [v?.[i]]. *)
Definition opt_get (v : value) (k : key) : value :=
  if nullish v then VUndefined else Get v k.

(** [v.k]: reading a property of [undefined] or [null] throws. *)
Definition member (v : value) (k : key) : result value :=
  if nullish v then Throw (TypeError "Cannot read properties of undefined or null")
  else Ok (Get v k).

(** A chain [v?.k1?.k2 ...] in which every link is optional. *)
Definition opt_chain (v : value) (ks : list key) : value :=
  fold_left opt_get ks v.

Fixpoint mapM {A B} (f : A -> result B) (l : list A) : result (list B) :=
  match l with
  | [] => Ok []
  | x :: rest =>
      rbind (f x) (fun y => rbind (mapM f rest) (fun ys => Ok (y :: ys)))
  end.

(** [parts.map(f)]: only an array has a callable [map]. *)
Definition array_map (f : value -> result value) (v : value) : result (list value) :=
  match v with
  | VArr l => mapM f l
  | _ => Throw (TypeError "parts.map is not a function")
  end.

Section Coercion.

(** [Number::toString] of the engine, kept abstract. *)
Variable NumberToString : float -> string.

(** [ToString].  An array prints its elements separated by commas, a hole,
    [undefined] or [null] printing as nothing.  A plain object prints as
    [[object Object]]; an own [toString] field parsed from JSON is never
    callable, and then [valueOf] returns the object itself, so the
    conversion throws. *)
Fixpoint ToString (v : value) : result string :=
  match v with
  | VUndefined => Ok "undefined"
  | VNull => Ok "null"
  | VBool true => Ok "true"
  | VBool false => Ok "false"
  | VNum n => Ok (NumberToString n)
  | VStr s => Ok s
  | VArr l =>
      rbind
        ((fix elems (l : list value) : result (list string) :=
            match l with
            | [] => Ok []
            | x :: rest =>
                rbind (if nullish x then Ok "" else ToString x)
                  (fun s => rbind (elems rest) (fun ss => Ok (s :: ss)))
            end) l)
        (fun ss => Ok (String.concat "," ss))
  | VObj fs =>
      match lookup "toString" fs with
      | Some _ => Throw (TypeError "Cannot convert object to primitive value")
      | None => Ok "[object Object]"
      end
  end.

(** [Array.prototype.join(sep)] on a list of values. *)
Definition array_join (sep : string) (l : list value) : result string :=
  rbind (mapM (fun x => if nullish x then Ok "" else ToString x) l)
    (fun ss => Ok (String.concat sep ss)).

End Coercion.

End JS.
Import JS.

(** ** Text extraction (handler, lines 150-157) *)

Definition newline : string := String (ascii_of_nat 10) EmptyString.

Section Extraction.

Variable NumberToString : float -> string.

(** [json?.candidates?.[0]?.content?.parts]. *)
Definition candidates_parts (json : value) : value :=
  opt_chain json [KName "candidates"; KIndex 0; KName "content"; KName "parts"].

(** [json?.content?.[0]?.parts]. *)
Definition content_parts (json : value) : value :=
  opt_chain json [KName "content"; KIndex 0; KName "parts"].

(** The value bound to [parts]: the first truthy of the two shapes, else []. *)
Definition resolved_parts (json : value) : value :=
  or_else (or_else (candidates_parts json) (content_parts json)) (VArr []).

(** [(p) => p.text || ""]. *)
Definition part_text (p : value) : result value :=
  rbind (member p (KName "text")) (fun t => Ok (or_else t (VStr ""))).

(** The body of the [try] block. *)
Definition extract_attempt (json : value) : result value :=
  rbind (array_map part_text (resolved_parts json))
    (fun texts => rbind (array_join NumberToString newline texts)
       (fun s => Ok (VStr s))).

(** [extracted] after the [try]/[catch]: it starts as [null] and the empty
    [catch] leaves it so. *)
Definition extract_text (json : value) : value :=
  match extract_attempt json with
  | Ok v => v
  | Throw _ => VNull
  end.

(** What one element of [parts] adds to the joined text, in the words of
    the specification: nothing when its [text] is missing or falsy, and the
    [text] as a string otherwise. *)
Inductive contributes : value -> string -> Prop :=
| contributes_nothing (p : value) :
    nullish p = false ->
    truthy (Get p (KName "text")) = false ->
    contributes p ""
| contributes_text (p : value) (s : string) :
    nullish p = false ->
    truthy (Get p (KName "text")) = true ->
    ToString NumberToString (Get p (KName "text")) = Ok s ->
    contributes p s.

End Extraction.

(** ** The outside world: network, timer, auth client *)

(** The second argument of [fetch]. *)
Record RequestInit : Type := mkInit {
  method : string;
  headers : list (string * string);
  body : string
}.

(** A node-fetch [Response]: its status and what [text()] and [json()]
    resolve to (or reject with). *)
Record Response : Type := mkResponse {
  status : Z;
  text_outcome : result string;
  json_outcome : result value
}.

(** [res.ok]: the status is in the range 200-299. *)
Definition ok (r : Response) : bool :=
  ((200 <=? status r) && (status r <=? 299))%Z.

Inductive event : Type :=
| EFetch (url : string) (init : RequestInit)
| ESleep (ms : float)
| EGetClient
| EGetAccessToken.

(** Effects in the order they happened. *)
Definition trace : Type := list event.

Definition is_fetch (e : event) : bool :=
  match e with EFetch _ _ => true | _ => false end.
Definition is_getClient (e : event) : bool :=
  match e with EGetClient => true | _ => false end.
Definition is_getAccessToken (e : event) : bool :=
  match e with EGetAccessToken => true | _ => false end.

Definition count (p : event -> bool) (t : trace) : nat := List.length (filter p t).

(** The delays handed to [setTimeout], in order. *)
Fixpoint delays (t : trace) : list float :=
  match t with
  | [] => []
  | ESleep ms :: rest => ms :: delays rest
  | _ :: rest => delays rest
  end.

(** The urls handed to [fetch], in order. *)
Fixpoint fetched_urls (t : trace) : list string :=
  match t with
  | [] => []
  | EFetch url _ :: rest => url :: fetched_urls rest
  | _ :: rest => fetched_urls rest
  end.

(** What the environment answers: the outcome of the n-th [fetch] (counted
    from 0) for the request it is given, of the n-th [auth.getClient()] and
    of the n-th [client.getAccessToken()]. *)
Record World : Type := mkWorld {
  fetch_outcome : nat -> string -> RequestInit -> result Response;
  getClient_outcome : nat -> result unit;
  getAccessToken_outcome : nat -> result value
}.

(** Process configuration read by the handler. *)
Record Env : Type := mkEnv { GOOGLE_API_KEY : option string }.

(** Truthiness of [process.env.X]: set and not the empty string. *)
Definition env_truthy (x : option string) : bool :=
  match x with
  | Some s => negb (s =? "")%string
  | None => false
  end.

(** ** A state-and-exception monad over the trace *)

Definition M (A : Type) : Type := trace -> result A * trace.

Definition ret {A} (a : A) : M A := fun t => (Ok a, t).

Definition throw {A} (e : Error) : M A := fun t => (Throw e, t).

Definition bind {A B} (m : M A) (k : A -> M B) : M B :=
  fun t =>
    match m t with
    | (Ok a, t') => k a t'
    | (Throw e, t') => (Throw e, t')
    end.

(** [try { m } catch (err) { h err }]. *)
Definition try_catch {A} (m : M A) (h : Error -> M A) : M A :=
  fun t =>
    match m t with
    | (Ok a, t') => (Ok a, t')
    | (Throw e, t') => h e t'
    end.

(** A pure computation that may throw. *)
Definition lift {A} (r : result A) : M A := fun t => (r, t).

Notation "x <- m ;; k" := (bind m (fun x => k))
  (at level 61, m at next level, right associativity).
Notation "m ;;; k" := (bind m (fun _ => k))
  (at level 61, right associativity).

(** ** The program *)

Section Relay.

Variable NumberToString : float -> string.
(** [JSON.stringify] of the engine, kept abstract. *)
Variable JSON_stringify : value -> string.
Variable w : World.

(** [await fetch(url, options)]. *)
Definition fetch (url : string) (options : RequestInit) : M Response :=
  fun t => (fetch_outcome w (count is_fetch t) url options, (t ++ [EFetch url options])%list).

(** [await new Promise((r) => setTimeout(r, delay))]. *)
Definition sleep (delay : float) : M unit :=
  fun t => (Ok tt, (t ++ [ESleep delay])%list).

(** [await auth.getClient()]. *)
Definition getClient : M unit :=
  fun t => (getClient_outcome w (count is_getClient t), (t ++ [EGetClient])%list).

(** [await client.getAccessToken()]. *)
Definition getAccessToken : M value :=
  fun t => (getAccessToken_outcome w (count is_getAccessToken t), (t ++ [EGetAccessToken])%list).

(** *** fetchWithRetry (lines 41-69) *)

Definition RETRYABLE : list Z := [429; 500; 502; 503; 504]%Z.

(** [list.includes(x)]. *)
Definition includes (l : list Z) (x : Z) : bool := existsb (Z.eqb x) l.

Definition INITIAL_DELAY : float := 600%float.

(** [delay *= 1.8]. *)
Definition grow (delay : float) : float := (delay * 1.8)%float.

(** How one pass through the loop body ends: [return res], or the next
    iteration with the updated [delay]. *)
Inductive step : Type :=
| Return (res : Response)
| Continue (delay : float).

(** The loop body: the [try] block and its [catch]. *)
Definition attempt_once (url : string) (options : RequestInit)
    (retries attempt : nat) (delay : float) : M step :=
  try_catch
    (res <- fetch url options ;;
     if includes RETRYABLE (status res) then
       if (attempt =? retries)%nat then ret (Return res)
       else sleep delay ;;; ret (Continue (grow delay))
     else ret (Return res))
    (fun err =>
       if (attempt =? retries)%nat then throw err
       else sleep delay ;;; ret (Continue (grow delay))).

(** [for (let attempt = 1; attempt <= retries; attempt++)], by recursion on
    the iterations left.  Leaving the loop without a [return] yields
    [undefined] ([None]). *)
Fixpoint retry_loop (url : string) (options : RequestInit) (retries : nat)
    (remaining attempt : nat) (delay : float) : M (option Response) :=
  match remaining with
  | 0 => ret None
  | S remaining' =>
      st <- attempt_once url options retries attempt delay ;;
      match st with
      | Return res => ret (Some res)
      | Continue delay' =>
          retry_loop url options retries remaining' (S attempt) delay'
      end
  end.

Definition fetchWithRetry (url : string) (options : RequestInit) (retries : nat)
    : M (option Response) :=
  retry_loop url options retries retries 1 INITIAL_DELAY.

(** *** POST /api/generate (lines 84-165) *)

Definition PRIMARY_MODEL : string := "gemini-2.5-flash".
Definition FALLBACK_MODEL : string := "gemini-2.5-mini".
Definition modelsToTry : list string := [PRIMARY_MODEL; FALLBACK_MODEL].

Definition modelEndpoint (modelName : string) : string :=
  "https://generativelanguage.googleapis.com/v1beta/models/" ++ modelName
  ++ ":generateContent".

(** The JSON documents the handler sends back. *)
Inductive Payload : Type :=
| MissingPrompt                                  (* { error: "Missing prompt" } *)
| UpstreamError (upstream_status : Z) (upstream_body : string)
                                                 (* { error: "upstream error", status, body } *)
| Generated (raw : value) (text : value)         (* { raw, text } *)
| InternalError (details : string).              (* { error: "internal error", details } *)

Record HttpResponse : Type := mkHttp { code : Z; payload : Payload }.

Variable env : Env.

Definition CONTENT_TYPE : string * string := ("Content-Type", "application/json").

(** [`${process.env.X}`]. *)
Definition env_text (x : option string) : string :=
  match x with Some s => s | None => "undefined" end.

(** Lines 102-107: ask the auth client for an access token and add the
    [Authorization] header.  The token is [accessToken.token] when that is
    truthy, and [accessToken] itself otherwise. *)
Definition service_account (headers : list (string * string))
    : M (list (string * string)) :=
  getClient ;;;
  accessToken <- getAccessToken ;;
  tok <- lift (member accessToken (KName "token")) ;;
  s <- lift (ToString NumberToString (or_else tok accessToken)) ;;
  ret (headers ++ [("Authorization", ("Bearer " ++ s)%string)])%list.

(** Lines 94-108: the url and headers of the upstream request.  With an API
    key the key goes into the query string; otherwise an access token is
    requested and sent as a bearer token. *)
Definition credentials (modelName : string) : M (string * list (string * string)) :=
  let url := modelEndpoint modelName in
  let headers := [CONTENT_TYPE] in
  if env_truthy (GOOGLE_API_KEY env) then
    ret (url ++ "?key=" ++ env_text (GOOGLE_API_KEY env), headers)
  else
    headers' <- service_account headers ;;
    ret (url, headers').

(** Lines 110-116: [{ contents: [{ parts: [{ text: prompt }] }] }]. *)
Definition request_body (prompt : value) : value :=
  VObj [("contents", VArr [VObj [("parts", VArr [VObj [("text", prompt)]])]])].

Definition request_init (headers : list (string * string)) (prompt : value)
    : RequestInit :=
  mkInit "POST" headers (JSON_stringify (request_body prompt)).

(** Lines 94-126: build the request for one model and send it. *)
Definition send_model (prompt : value) (modelName : string) : M (option Response) :=
  uh <- credentials modelName ;;
  fetchWithRetry (fst uh) (request_init (snd uh) prompt) 7.

(** How one pass through the model loop ends. *)
Inductive iteration : Type :=
| Respond (r : HttpResponse)
| NextModel.

(** [await gresp.text().catch(() => "")]. *)
Definition text_or_empty (gresp : Response) : string :=
  match text_outcome gresp with Ok s => s | Throw _ => "" end.

(** Lines 128-159: what the handler does with the response of one model. *)
Definition settle (modelName : string) (gresp : option Response) : M iteration :=
  match gresp with
  | None => throw (TypeError "Cannot read properties of undefined (reading 'ok')")
  | Some gresp =>
      if negb (ok gresp) then
        if (modelName =? FALLBACK_MODEL)%string then
          ret (Respond (mkHttp 502 (UpstreamError (status gresp) (text_or_empty gresp))))
        else ret NextModel
      else
        json <- lift (json_outcome gresp) ;;
        ret (Respond (mkHttp 200 (Generated json (extract_text NumberToString json))))
  end.

(** The body of [for (let modelName of modelsToTry)]. *)
Definition try_model (prompt : value) (modelName : string) : M iteration :=
  gresp <- send_model prompt modelName ;;
  settle modelName gresp.

(** The model loop.  [None]: the loop ended and nothing was sent. *)
Fixpoint try_models (prompt : value) (models : list string) : M (option HttpResponse) :=
  match models with
  | [] => ret None
  | modelName :: rest =>
      it <- try_model prompt modelName ;;
      match it with
      | Respond r => ret (Some r)
      | NextModel => try_models prompt rest
      end
  end.

(** The [try] block of the handler; [reqBody] is [req.body]. *)
Definition generate (reqBody : value) : M (option HttpResponse) :=
  prompt <- lift (member reqBody (KName "prompt")) ;;
  if negb (truthy prompt) then ret (Some (mkHttp 400 MissingPrompt))
  else try_models prompt modelsToTry.

(** The handler: the outer [catch] answers 500 for whatever was thrown. *)
Definition handler (reqBody : value) (t : trace) : option HttpResponse * trace :=
  match generate reqBody t with
  | (Ok r, t') => (r, t')
  | (Throw err, t') => (Some (mkHttp 500 (InternalError (err_toString err))), t')
  end.

End Relay.

(** ** Startup: prepareGoogleCreds (credentials.js, lines 5-21) *)

(** The part of the process the function touches: the environment
    variables and the files, each as an association list with the newest
    binding first. *)
Record Process : Type := mkProcess {
  vars : list (string * string);
  files : list (string * string)
}.

Fixpoint assoc (k : string) (l : list (string * string)) : option string :=
  match l with
  | [] => None
  | (k', v) :: rest => if (k' =? k)%string then Some v else assoc k rest
  end.

(** [process.env[name]]. *)
Definition getenv (name : string) (p : Process) : option string :=
  assoc name (vars p).

(** [process.env[name] = v]. *)
Definition setenv (name v : string) (p : Process) : Process :=
  mkProcess ((name, v) :: vars p) (files p).

(** The content of the file at [path], if there is one. *)
Definition readFile (path : string) (p : Process) : option string :=
  assoc path (files p).

(** [fs.writeFileSync(path, data, { encoding: "utf8" })].  [disk path data]
    tells whether the write goes through; when it does the file holds
    [data].  What a failed write leaves on disk is not modelled: the files
    are left as they were. *)
Definition writeFileSync (disk : string -> string -> result unit)
    (path data : string) (p : Process) : result unit * Process :=
  match disk path data with
  | Ok _ => (Ok tt, mkProcess (vars p) ((path, data) :: files p))
  | Throw e => (Throw e, p)
  end.

(** [prepareGoogleCreds()]; [None] is [null]. *)
Definition prepareGoogleCreds (disk : string -> string -> result unit)
    (p : Process) : option string * Process :=
  let raw := getenv "GOOGLE_SERVICE_ACCOUNT_JSON" p in
  if negb (env_truthy raw) then (None, p)
  else
    let outPath := "/tmp/google_service_account.json" in
    match writeFileSync disk outPath (env_text raw) p with
    | (Ok _, p1) => (Some outPath, setenv "GOOGLE_APPLICATION_CREDENTIALS" outPath p1)
    | (Throw _, p1) => (None, p1)
    end.

(** ** Reference descriptions of the retry behaviour *)

(** The geometric schedule [d, d * 1.8, d * 1.8 * 1.8, ...] of [k] delays. *)
Fixpoint schedule (d : float) (k : nat) : list float :=
  match k with
  | 0 => []
  | S k' => d :: schedule (grow d) k'
  end.

(** The trace of [k] attempts that are each followed by a backoff wait,
    the first wait being [d]. *)
Fixpoint retry_events (url : string) (options : RequestInit) (k : nat) (d : float)
    : trace :=
  match k with
  | 0 => []
  | S k' => EFetch url options :: ESleep d :: retry_events url options k' (grow d)
  end.

(** An outcome after which a non-final attempt is retried: a transport error
    or a response with a retryable status. *)
Definition retry_worthy (o : result Response) : bool :=
  match o with
  | Ok res => includes RETRYABLE (status res)
  | Throw _ => true
  end.

(** The outcome of the [i]-th fetch issued after the trace [t] (counted
    from 0) for the request [url], [options]. *)
Definition outcome_at (w : World) (url : string) (options : RequestInit)
    (t : trace) (i : nat) : result Response :=
  fetch_outcome w (count is_fetch t + i) url options.

(** Each delay after the first is the previous one times 1.8. *)
Definition geometric (l : list float) : Prop :=
  forall i, S i < List.length l -> nth (S i) l 0%float = grow (nth i l 0%float).

(** ** Reference description of the handler's traces *)

(** The headers sent with a bearer token [s]. *)
Definition bearer_headers (s : string) : list (string * string) :=
  [CONTENT_TYPE; ("Authorization", "Bearer " ++ s)].

(** What one pass through the model loop may add to the trace.  With an API
    key: some retried fetches and a last fetch, all to the keyed url, and no
    auth call.  Without one: [getClient], then [getAccessToken], then the
    fetches with the bearer header; either auth call may throw and end the
    pass. *)
Inductive attempt_trace (JSON_stringify : value -> string) (env : Env)
    (prompt : value) (modelName : string) : trace -> Prop :=
| attempt_with_key (k : nat) :
    env_truthy (GOOGLE_API_KEY env) = true ->
    k < 7 ->
    attempt_trace JSON_stringify env prompt modelName
      (retry_events
         (modelEndpoint modelName ++ "?key=" ++ env_text (GOOGLE_API_KEY env))
         (request_init JSON_stringify [CONTENT_TYPE] prompt) k INITIAL_DELAY
       ++ [EFetch
             (modelEndpoint modelName ++ "?key=" ++ env_text (GOOGLE_API_KEY env))
             (request_init JSON_stringify [CONTENT_TYPE] prompt)])%list
| attempt_no_client :
    env_truthy (GOOGLE_API_KEY env) = false ->
    attempt_trace JSON_stringify env prompt modelName [EGetClient]
| attempt_no_token :
    env_truthy (GOOGLE_API_KEY env) = false ->
    attempt_trace JSON_stringify env prompt modelName [EGetClient; EGetAccessToken]
| attempt_with_token (s : string) (k : nat) :
    env_truthy (GOOGLE_API_KEY env) = false ->
    k < 7 ->
    attempt_trace JSON_stringify env prompt modelName
      ([EGetClient; EGetAccessToken]
       ++ retry_events (modelEndpoint modelName)
            (request_init JSON_stringify (bearer_headers s) prompt)
            k INITIAL_DELAY
       ++ [EFetch (modelEndpoint modelName)
             (request_init JSON_stringify (bearer_headers s) prompt)])%list.

(** What one run of the handler may add to the trace: nothing, a pass for
    the primary model, or a pass for each of the two models. *)
Definition handler_trace (JSON_stringify : value -> string) (env : Env)
    (reqBody : value) (new : trace) : Prop :=
  new = [] \/
  exists prompt,
    member reqBody (KName "prompt") = Ok prompt /\
    truthy prompt = true /\
    (attempt_trace JSON_stringify env prompt PRIMARY_MODEL new \/
     exists n1 n2,
       new = (n1 ++ n2)%list /\
       attempt_trace JSON_stringify env prompt PRIMARY_MODEL n1 /\
       attempt_trace JSON_stringify env prompt FALLBACK_MODEL n2).

(** The four documents the handler answers with, each under its own
    status; the [text] of a 200 answer is a string or [null]. *)
Definition answer_shape (r : HttpResponse) : Prop :=
  (code r = 400%Z /\ payload r = MissingPrompt) \/
  (code r = 200%Z /\
   exists raw text,
     payload r = Generated raw text /\ (text = VNull \/ exists s, text = VStr s)) \/
  (code r = 502%Z /\ exists st b, payload r = UpstreamError st b) \/
  (code r = 500%Z /\ exists d, payload r = InternalError d).

(** ** Sample inputs *)

Module Samples.

(** A stand-in for the engine's number printer and serializer. *)
Definition NumberToString (n : float) : string := "1".
Definition JSON_stringify (v : value) : string :=
  match v with
  | VObj [("contents", VArr [VObj [("parts", VArr [VObj [("text", VStr s)]])]])] =>
      "{contents:[{parts:[{text:" ++ s ++ "}]}]}"
  | _ => "{}"
  end.

(** [{ candidates: [{ content: { parts: [{ text: "hello" }] } }] }]. *)
Definition hello_json : value :=
  VObj [("candidates",
         VArr [VObj [("content", VObj [("parts", VArr [VObj [("text", VStr "hello")]])])]])].

(** [{ content: [{ parts: [{ text: "world" }] }] }]. *)
Definition world_json : value :=
  VObj [("content", VArr [VObj [("parts", VArr [VObj [("text", VStr "world")]])]])].

(** [{ candidates: [{ content: { parts: "oops" } }] }]: [parts] is a string. *)
Definition malformed_json : value :=
  VObj [("candidates", VArr [VObj [("content", VObj [("parts", VStr "oops")])]])].

(** [{ candidates: [{ content: { parts: [null, { text: "a" }] } }] }]. *)
Definition null_part_json : value :=
  VObj [("candidates",
         VArr [VObj [("content",
                      VObj [("parts", VArr [VNull; VObj [("text", VStr "a")]])])]])].

(** [{ candidates: [{ content: { parts: [{text:"a"}, {}, {text:"b"}] } }] }]. *)
Definition three_parts_json : value :=
  VObj [("candidates",
         VArr [VObj [("content",
                      VObj [("parts", VArr [VObj [("text", VStr "a")]; VObj [];
                                            VObj [("text", VStr "b")]])])]])].

Definition url : string := "https://upstream.example/generate".
Definition options : RequestInit := mkInit "POST" [] "{}".

Definition busy : Response := mkResponse 503 (Ok "busy") (Throw (mkError "SyntaxError" "Unexpected token"))%Z.
Definition not_found : Response := mkResponse 404 (Ok "no such model") (Ok VNull)%Z.
Definition reset : Error := mkError "FetchError" "socket hang up".
Definition access_token : value := VObj [("token", VStr "ya29")].

(** Every fetch is answered 503. *)
Definition always_busy : World :=
  mkWorld (fun _ _ _ => Ok busy) (fun _ => Ok tt) (fun _ => Ok access_token).

(** Every fetch is answered 404. *)
Definition always_not_found : World :=
  mkWorld (fun _ _ _ => Ok not_found) (fun _ => Ok tt) (fun _ => Ok access_token).

(** The connection drops on the first two fetches and on the seventh; the
    others are answered 503. *)
Definition dropping : World :=
  mkWorld (fun n _ _ =>
             if ((n =? 0) || (n =? 1) || (n =? 6))%nat then Throw reset else Ok busy)
          (fun _ => Ok tt) (fun _ => Ok access_token).

(** The first fetch (the primary model) is answered 404, the later ones
    (the fallback model) 503. *)
Definition both_fail : World :=
  mkWorld (fun n _ _ => if (n <? 1)%nat then Ok not_found else Ok busy)
          (fun _ => Ok tt) (fun _ => Ok access_token).

Definition with_key : Env := mkEnv (Some "K3Y").
Definition without_key : Env := mkEnv None.

(** [{ prompt: "hi" }]. *)
Definition hi_request : value := VObj [("prompt", VStr "hi")].

(** What the handler adds to the trace when every fetch is answered 503
    and an API key is configured. *)
Definition all_busy_run : trace :=
  snd (handler NumberToString JSON_stringify always_busy with_key hi_request []).

(** [{ candidates: [{ content: { parts: [] } }],
       content: [{ parts: [{ text: "world" }] }] }]. *)
Definition masked_json : value :=
  VObj [("candidates", VArr [VObj [("content", VObj [("parts", VArr [])])]]);
        ("content", VArr [VObj [("parts", VArr [VObj [("text", VStr "world")]])]])].

(** The first fetch drops, the second is answered 503, the third 404. *)
Definition recovering : World :=
  mkWorld (fun n _ _ =>
             if (n =? 0)%nat then Throw reset
             else if (n =? 1)%nat then Ok busy else Ok not_found)
          (fun _ => Ok tt) (fun _ => Ok access_token).

(** A 200 response carrying [hello_json]. *)
Definition greeting : Response := mkResponse 200 (Ok "{...}") (Ok hello_json)%Z.

(** A 200 response whose body is not JSON. *)
Definition garbled : Response :=
  mkResponse 200 (Ok "<html>") (Throw (mkError "SyntaxError" "Unexpected token <"))%Z.

Definition always_greeting : World :=
  mkWorld (fun _ _ _ => Ok greeting) (fun _ => Ok tt) (fun _ => Ok access_token).

Definition always_garbled : World :=
  mkWorld (fun _ _ _ => Ok garbled) (fun _ => Ok tt) (fun _ => Ok access_token).

(** The primary model is answered 404, the fallback model 200. *)
Definition fallback_works : World :=
  mkWorld (fun n _ _ => if (n <? 1)%nat then Ok not_found else Ok greeting)
          (fun _ => Ok tt) (fun _ => Ok access_token).

Definition denied : Error := mkError "Error" "Could not load the default credentials".

(** No usable service account: [getClient] throws. *)
Definition no_client : World :=
  mkWorld (fun _ _ _ => Ok greeting) (fun _ => Throw denied) (fun _ => Ok access_token).

(** The token exchange is refused. *)
Definition no_token : World :=
  mkWorld (fun _ _ _ => Ok greeting) (fun _ => Ok tt) (fun _ => Throw denied).

(** [getAccessToken] resolves to a plain string. *)
Definition plain_token : World :=
  mkWorld (fun _ _ _ => Ok greeting) (fun _ => Ok tt) (fun _ => Ok (VStr "ya29")).

(** A process with a service account in its environment, and disks that
    accept or refuse every write. *)
Definition configured : Process :=
  mkProcess [("PORT", "8080"); ("GOOGLE_SERVICE_ACCOUNT_JSON", "{sa}")]
            [("/tmp/other", "x")].
Definition unconfigured : Process := mkProcess [("PORT", "8080")] [].
Definition good_disk (path data : string) : result unit := Ok tt.
Definition read_only_disk (path data : string) : result unit :=
  Throw (mkError "Error" "EROFS: read-only file system").

End Samples.

(** ** Facts about the extraction *)

Section ExtractionFacts.

Variable NumberToString : float -> string.

Lemma or_else_truthy (a b : value) : truthy a = true -> or_else a b = a.
Proof. intros H; unfold or_else; now rewrite H. Qed.

Lemma or_else_falsy (a b : value) : truthy a = false -> or_else a b = b.
Proof. intros H; unfold or_else; now rewrite H. Qed.

Lemma field_lookup k fs v : lookup k fs = Some v -> field k fs = v.
Proof. intros H; unfold field; now rewrite H. Qed.

(** What the first shape resolves to on a well-formed body. *)
Lemma candidates_parts_shape fs c0 rest ct v :
  lookup "candidates" fs = Some (VArr (VObj c0 :: rest)) ->
  lookup "content" c0 = Some (VObj ct) ->
  lookup "parts" ct = Some v ->
  candidates_parts (VObj fs) = v.
Proof.
  intros Hc Hct Hp. unfold candidates_parts, opt_chain. cbn [fold_left].
  unfold opt_get at 4. cbn [nullish Get]. rewrite (field_lookup _ _ _ Hc).
  unfold opt_get at 3. cbn [nullish Get nth].
  unfold opt_get at 2. cbn [nullish Get]. rewrite (field_lookup _ _ _ Hct).
  unfold opt_get. cbn [nullish Get]. now rewrite (field_lookup _ _ _ Hp).
Qed.

(** What the second shape resolves to on a well-formed body. *)
Lemma content_parts_shape fs c0 rest v :
  lookup "content" fs = Some (VArr (VObj c0 :: rest)) ->
  lookup "parts" c0 = Some v ->
  content_parts (VObj fs) = v.
Proof.
  intros Hc Hp. unfold content_parts, opt_chain. cbn [fold_left].
  unfold opt_get at 3. cbn [nullish Get]. rewrite (field_lookup _ _ _ Hc).
  unfold opt_get at 2. cbn [nullish Get nth].
  unfold opt_get. cbn [nullish Get]. now rewrite (field_lookup _ _ _ Hp).
Qed.

Lemma candidates_parts_absent fs :
  lookup "candidates" fs = None -> candidates_parts (VObj fs) = VUndefined.
Proof.
  intros H. unfold candidates_parts, opt_chain. cbn [fold_left].
  unfold opt_get at 4. cbn [nullish Get]. unfold field. rewrite H. reflexivity.
Qed.

(** A single part whose [text] is the string [s] yields [s]. *)
Lemma extract_single_part json p s :
  resolved_parts json = VArr [VObj p] ->
  lookup "text" p = Some (VStr s) ->
  extract_text NumberToString json = VStr s.
Proof.
  intros Hr Ht. unfold extract_text, extract_attempt. rewrite Hr.
  cbn [array_map mapM]. unfold part_text, member. cbn [nullish Get rbind].
  rewrite (field_lookup _ _ _ Ht).
  destruct (truthy (VStr s)) eqn:E.
  - rewrite (or_else_truthy _ _ E). reflexivity.
  - rewrite (or_else_falsy _ _ E). cbn in E.
    apply negb_false_iff, String.eqb_eq in E. subst s. reflexivity.
Qed.

Lemma truthy_not_nullish v : truthy v = true -> nullish v = false.
Proof. destruct v; cbn; congruence. Qed.

(** The mapped texts and their strings, element by element. *)
Lemma contributes_map (l : list value) (strs : list string) :
  Forall2 (contributes NumberToString) l strs ->
  exists texts,
    mapM part_text l = Ok texts /\
    mapM (fun x => if nullish x then Ok "" else ToString NumberToString x) texts
      = Ok strs.
Proof.
  induction 1 as [|p s l strs Hp _ IH].
  - exists []. split; reflexivity.
  - destruct IH as (texts & Hm & Hj).
    inversion Hp as [p' Hn Hf | p' s' Hn Ht Hs]; subst.
    + exists (VStr "" :: texts). cbn [mapM]. unfold part_text at 1, member.
      rewrite Hn. cbn [rbind]. rewrite (or_else_falsy _ _ Hf), Hm. cbn [rbind].
      split; [reflexivity|]. cbn [nullish]. cbn [ToString rbind]. now rewrite Hj.
    + exists (Get p (KName "text") :: texts). cbn [mapM]. unfold part_text at 1, member.
      rewrite Hn. cbn [rbind]. rewrite (or_else_truthy _ _ Ht), Hm. cbn [rbind].
      split; [reflexivity|]. rewrite (truthy_not_nullish _ Ht), Hs. cbn [rbind].
      now rewrite Hj.
Qed.

(** A [null] element makes the callback throw. *)
Lemma mapM_part_text_null (l : list value) :
  In VNull l -> exists e, mapM part_text l = Throw e.
Proof.
  induction l as [|p l IH]; intros Hin; [destruct Hin|].
  destruct Hin as [->|Hin].
  - cbn. eauto.
  - cbn [mapM]. destruct (part_text p) as [y|e]; cbn [rbind]; [|eauto].
    destruct (IH Hin) as [e ->]. cbn. eauto.
Qed.

Lemma extract_join json l strs :
  resolved_parts json = VArr l ->
  Forall2 (contributes NumberToString) l strs ->
  extract_text NumberToString json = VStr (String.concat newline strs).
Proof.
  intros Hr Hc. destruct (contributes_map _ _ Hc) as (texts & Hm & Hj).
  unfold extract_text, extract_attempt. rewrite Hr. cbn [array_map].
  rewrite Hm. cbn [rbind]. unfold array_join. now rewrite Hj.
Qed.

Lemma extract_null_part json l :
  resolved_parts json = VArr l -> In VNull l ->
  extract_text NumberToString json = VNull.
Proof.
  intros Hr Hin. destruct (mapM_part_text_null _ Hin) as [e He].
  unfold extract_text, extract_attempt. rewrite Hr. cbn [array_map].
  now rewrite He.
Qed.

(** A 2xx response whose body parses is answered with [{ raw, text }]. *)
Lemma settle_success modelName gresp json t :
  ok gresp = true -> json_outcome gresp = Ok json ->
  settle NumberToString modelName (Some gresp) t
  = (Ok (Respond (mkHttp 200 (Generated json (extract_text NumberToString json)))), t).
Proof.
  intros Hok Hj. unfold settle. rewrite Hok. cbn [negb].
  unfold bind, lift. now rewrite Hj.
Qed.

End ExtractionFacts.

(** C6 (amended): for a parsed 2xx body, (1) the shape
    [candidates[0].content.parts] with a single part whose [text] is a string
    (such as "hello") yields that string; (2) when the first path resolves
    to no truthy value (say [candidates] is absent), the shape
    [content[0].parts] with a single part whose [text] is a string (such as
    "world") yields that string; (3) when neither path resolves to a
    truthy value the extracted text is the empty string; (4, 5) when the
    resolved [parts] holds a [null] element or is not an array, the extracted
    text is [null], not the empty string; (6) in every case the handler
    answers 200 with [{ raw, text }] and nothing is thrown. *)
Theorem extraction_tolerance (NumberToString : float -> string) (json : value) :
  (forall fs c0 rest ct p s,
      json = VObj fs ->
      lookup "candidates" fs = Some (VArr (VObj c0 :: rest)) ->
      lookup "content" c0 = Some (VObj ct) ->
      lookup "parts" ct = Some (VArr [VObj p]) ->
      lookup "text" p = Some (VStr s) ->
      extract_text NumberToString json = VStr s) /\
  (forall fs c0 rest p s,
      json = VObj fs ->
      truthy (candidates_parts json) = false ->
      lookup "content" fs = Some (VArr (VObj c0 :: rest)) ->
      lookup "parts" c0 = Some (VArr [VObj p]) ->
      lookup "text" p = Some (VStr s) ->
      extract_text NumberToString json = VStr s) /\
  (truthy (candidates_parts json) = false ->
   truthy (content_parts json) = false ->
   extract_text NumberToString json = VStr "") /\
  (forall l,
      resolved_parts json = VArr l -> In VNull l ->
      extract_text NumberToString json = VNull) /\
  ((forall l, resolved_parts json <> VArr l) ->
   extract_text NumberToString json = VNull) /\
  (forall modelName gresp t,
      ok gresp = true -> json_outcome gresp = Ok json ->
      settle NumberToString modelName (Some gresp) t
      = (Ok (Respond (mkHttp 200 (Generated json (extract_text NumberToString json)))), t)).
Proof.
  repeat split.
  - intros fs c0 rest ct p s -> Hc Hct Hp Ht.
    apply extract_single_part with (p := p); [|exact Ht].
    unfold resolved_parts.
    rewrite (candidates_parts_shape _ _ _ _ _ Hc Hct Hp). reflexivity.
  - intros fs c0 rest p s -> Hn Hc Hp Ht.
    apply extract_single_part with (p := p); [|exact Ht].
    unfold resolved_parts.
    rewrite (or_else_falsy _ _ Hn), (content_parts_shape _ _ _ _ Hc Hp).
    reflexivity.
  - intros H1 H2. unfold extract_text, extract_attempt, resolved_parts.
    rewrite (or_else_falsy _ _ H1), (or_else_falsy _ _ H2). reflexivity.
  - intros l Hr Hin. exact (extract_null_part _ _ _ Hr Hin).
  - intros Hna. unfold extract_text, extract_attempt.
    destruct (resolved_parts json) as [| | | | |l|] eqn:E; try reflexivity.
    now elim (Hna l).
  - intros modelName gresp t Hok Hj. now apply settle_success.
Qed.

Lemma extraction_tolerance_witness :
  extract_text Samples.NumberToString Samples.hello_json = VStr "hello" /\
  extract_text Samples.NumberToString Samples.world_json = VStr "world" /\
  extract_text Samples.NumberToString (VObj [("candidates", VArr [])]) = VStr "".
Proof.
  split; [|split].
  - destruct (extraction_tolerance Samples.NumberToString Samples.hello_json)
      as (H & _).
    exact (H _ _ _ _ _ _ eq_refl eq_refl eq_refl eq_refl eq_refl).
  - destruct (extraction_tolerance Samples.NumberToString Samples.world_json)
      as (_ & H & _).
    exact (H _ _ _ _ _ eq_refl eq_refl eq_refl eq_refl eq_refl).
  - destruct (extraction_tolerance Samples.NumberToString
                (VObj [("candidates", VArr [])])) as (_ & _ & H & _).
    exact (H eq_refl eq_refl).
Defined.

(** C6 as stated fails: a body whose [parts] field is malformed (a string)
    is answered with the text [null], not with the empty string. *)
Lemma extraction_malformed_counterexample :
  extract_text Samples.NumberToString Samples.malformed_json = VNull /\
  extract_text Samples.NumberToString Samples.malformed_json <> VStr "".
Proof. split; [reflexivity | discriminate]. Qed.

(** C9 (amended): for a 2xx response whose body parses and whose resolved
    [parts] is an array, (1) when no element is [null] or [undefined] and
    each truthy [text] converts to a string (every string, number and boolean
    does), the text sent back is the parts' texts joined by one newline, a
    missing or falsy [text] adding the empty string; (2) when an element is
    [null], the text sent back is [null]. *)
Theorem parts_joined_by_newline (NumberToString : float -> string)
    (modelName : string) (gresp : Response) (json : value) (l : list value)
    (t : trace) :
  ok gresp = true ->
  json_outcome gresp = Ok json ->
  resolved_parts json = VArr l ->
  (forall strs,
      Forall2 (contributes NumberToString) l strs ->
      settle NumberToString modelName (Some gresp) t
      = (Ok (Respond (mkHttp 200
               (Generated json (VStr (String.concat newline strs))))), t)) /\
  (In VNull l ->
   settle NumberToString modelName (Some gresp) t
   = (Ok (Respond (mkHttp 200 (Generated json VNull))), t)).
Proof.
  intros Hok Hj Hr. split.
  - intros strs Hc. rewrite (settle_success _ _ _ _ _ Hok Hj).
    now rewrite (extract_join _ _ _ _ Hr Hc).
  - intros Hin. rewrite (settle_success _ _ _ _ _ Hok Hj).
    now rewrite (extract_null_part _ _ _ Hr Hin).
Qed.

Lemma parts_joined_by_newline_witness :
  settle Samples.NumberToString "gemini-2.5-flash"
    (Some (mkResponse 200 (Ok "") (Ok Samples.three_parts_json))) []
  = (Ok (Respond (mkHttp 200
           (Generated Samples.three_parts_json
              (VStr ("a" ++ newline ++ "" ++ newline ++ "b"))))), []).
Proof.
  refine (proj1 (parts_joined_by_newline Samples.NumberToString "gemini-2.5-flash"
                   (mkResponse 200 (Ok "") (Ok Samples.three_parts_json))
                   Samples.three_parts_json
                   [VObj [("text", VStr "a")]; VObj []; VObj [("text", VStr "b")]]
                   [] eq_refl eq_refl eq_refl) ["a"; ""; "b"] _).
  apply Forall2_cons; [apply contributes_text; reflexivity|].
  apply Forall2_cons; [apply contributes_nothing; reflexivity|].
  apply Forall2_cons; [apply contributes_text; reflexivity|].
  apply Forall2_nil.
Defined.

(** C9 as stated fails: [parts = [null, { text: "a" }]] is an array of two
    elements, yet the text sent back is [null], not a newline-joined string. *)
Lemma null_part_counterexample :
  resolved_parts Samples.null_part_json = VArr [VNull; VObj [("text", VStr "a")]] /\
  extract_text Samples.NumberToString Samples.null_part_json = VNull /\
  extract_text Samples.NumberToString Samples.null_part_json
  <> VStr (String.concat newline [""; "a"]).
Proof. split; [reflexivity | split; [reflexivity | discriminate]]. Qed.

(** ** Facts about traces *)

Lemma count_app (p : event -> bool) (t1 t2 : trace) :
  count p (t1 ++ t2)%list = count p t1 + count p t2.
Proof. unfold count. now rewrite filter_app, length_app. Qed.

Lemma delays_app (t1 t2 : trace) : delays (t1 ++ t2)%list = (delays t1 ++ delays t2)%list.
Proof.
  induction t1 as [|e t1 IH]; [reflexivity|].
  destruct e; cbn; now rewrite IH.
Qed.

Lemma fetched_urls_app (t1 t2 : trace) :
  fetched_urls (t1 ++ t2)%list = (fetched_urls t1 ++ fetched_urls t2)%list.
Proof.
  induction t1 as [|e t1 IH]; [reflexivity|].
  destruct e; cbn; now rewrite IH.
Qed.

Lemma count_fetch_retry_events url options k d :
  count is_fetch (retry_events url options k d) = k.
Proof.
  revert d; induction k as [|k IH]; intros d; [reflexivity|].
  cbn [retry_events]. change (S (count is_fetch (retry_events url options k (grow d))) = S k).
  now rewrite IH.
Qed.

Lemma delays_retry_events url options k d :
  delays (retry_events url options k d) = schedule d k.
Proof.
  revert d; induction k as [|k IH]; intros d; [reflexivity|].
  cbn. now rewrite IH.
Qed.

Lemma fetched_urls_retry_events url options k d :
  fetched_urls (retry_events url options k d) = repeat url k.
Proof.
  revert d; induction k as [|k IH]; intros d; [reflexivity|].
  cbn. now rewrite IH.
Qed.

Lemma count_no_auth_retry_events url options k d :
  count is_getClient (retry_events url options k d) = 0 /\
  count is_getAccessToken (retry_events url options k d) = 0.
Proof.
  revert d; induction k as [|k IH]; intros d; [split; reflexivity|].
  destruct (IH (grow d)) as [H1 H2]. split; cbn [retry_events]; assumption.
Qed.

(** The schedule obeys [delay_{i+1} = delay_i * 1.8]. *)
Lemma schedule_geometric d k : geometric (schedule d k).
Proof.
  unfold geometric. revert d; induction k as [|k IH]; intros d i Hi.
  - cbn in Hi. lia.
  - cbn [schedule List.length] in *. destruct i as [|i].
    + destruct k as [|k]; [cbn in Hi; lia|]. reflexivity.
    + cbn [nth]. apply IH. lia.
Qed.

(** ** Facts about fetchWithRetry *)

Section RetryFacts.

Variable w : World.
Variable url : string.
Variable options : RequestInit.
Variable retries : nat.

Lemma outcome_at_next (t : trace) (d : float) (i : nat) :
  outcome_at w url options (t ++ [EFetch url options; ESleep d])%list i
  = outcome_at w url options t (S i).
Proof.
  unfold outcome_at.
  rewrite count_app. change (count is_fetch [EFetch url options; ESleep d]) with 1.
  f_equal. lia.
Qed.

Lemma outcome_at_0 (t : trace) :
  outcome_at w url options t 0 = fetch_outcome w (count is_fetch t) url options.
Proof. unfold outcome_at. now rewrite Nat.add_0_r. Qed.

(** A non-final attempt that meets a transport error or a retryable status
    waits [d] and goes round again with [d * 1.8]. *)
Lemma retry_loop_continue (k attempt : nat) (d : float) (t : trace) :
  attempt <> retries ->
  retry_worthy (fetch_outcome w (count is_fetch t) url options) = true ->
  retry_loop w url options retries (S k) attempt d t
  = retry_loop w url options retries k (S attempt) (grow d)
      (t ++ [EFetch url options; ESleep d])%list.
Proof.
  intros Hne Hw. apply Nat.eqb_neq in Hne.
  cbn [retry_loop]. unfold bind at 1, attempt_once, try_catch, bind, fetch.
  destruct (fetch_outcome w (count is_fetch t) url options) as [res|e];
    cbn [retry_worthy] in Hw.
  - rewrite Hw, Hne. unfold sleep, ret. now rewrite <- app_assoc.
  - rewrite Hne. unfold bind, sleep, ret. now rewrite <- app_assoc.
Qed.

(** A response is returned as it is when its status is not retryable, or on
    the last attempt whatever its status. *)
Lemma retry_loop_response (k attempt : nat) (d : float) (t : trace) (res : Response) :
  fetch_outcome w (count is_fetch t) url options = Ok res ->
  includes RETRYABLE (status res) = false \/ attempt = retries ->
  retry_loop w url options retries (S k) attempt d t
  = (Ok (Some res), (t ++ [EFetch url options])%list).
Proof.
  intros Ho Hc.
  cbn [retry_loop]. unfold bind at 1, attempt_once, try_catch, bind, fetch.
  rewrite Ho. destruct (includes RETRYABLE (status res)) eqn:E.
  - destruct Hc as [Hc| ->]; [discriminate|]. now rewrite Nat.eqb_refl.
  - reflexivity.
Qed.

(** A transport error on the last attempt is thrown. *)
Lemma retry_loop_error (k : nat) (d : float) (t : trace) (e : Error) :
  fetch_outcome w (count is_fetch t) url options = Throw e ->
  retry_loop w url options retries (S k) retries d t
  = (Throw e, (t ++ [EFetch url options])%list).
Proof.
  intros Ho.
  cbn [retry_loop]. unfold bind at 1, attempt_once, try_catch, bind, fetch.
  rewrite Ho. now rewrite Nat.eqb_refl.
Qed.

(** [k] attempts in a row that each end in a wait. *)
Lemma retry_loop_run (k : nat) :
  forall (remaining attempt : nat) (d : float) (t : trace),
    (forall i, i < k -> retry_worthy (outcome_at w url options t i) = true) ->
    attempt + k <= retries ->
    exists d',
      retry_loop w url options retries (k + remaining) attempt d t
      = retry_loop w url options retries remaining (attempt + k) d'
          (t ++ retry_events url options k d)%list.
Proof.
  induction k as [|k IH]; intros remaining attempt d t Hw Hle.
  - exists d. cbn [retry_events Nat.add]. now rewrite app_nil_r, Nat.add_0_r.
  - cbn [Nat.add]. rewrite retry_loop_continue.
    + destruct (IH remaining (S attempt) (grow d)
                  (t ++ [EFetch url options; ESleep d])%list) as [d' Hd'].
      * intros i Hi. rewrite outcome_at_next. apply Hw. lia.
      * lia.
      * exists d'. rewrite Hd'. cbn [retry_events].
        rewrite <- app_assoc. cbn [app]. f_equal. lia.
    + lia.
    + rewrite <- outcome_at_0. apply Hw. lia.
Qed.

(** The trace of any call: some attempts each followed by a wait, the
    waits following the schedule, then one last fetch. *)
Lemma retry_loop_shape (remaining : nat) :
  forall (attempt : nat) (d : float) (t : trace),
    attempt + remaining = S retries ->
    1 <= remaining ->
    exists k,
      k < remaining /\
      snd (retry_loop w url options retries remaining attempt d t)
      = (t ++ retry_events url options k d ++ [EFetch url options])%list.
Proof.
  induction remaining as [|r IH]; intros attempt d t Hinv Hpos; [lia|].
  destruct (Nat.eq_dec attempt retries) as [Heq|Hne].
  - exists 0. split; [lia|]. subst attempt.
    destruct (fetch_outcome w (count is_fetch t) url options) as [res|e] eqn:Ho.
    + now rewrite (retry_loop_response _ _ _ _ _ Ho (or_intror eq_refl)).
    + now rewrite (retry_loop_error _ _ _ _ Ho).
  - destruct (retry_worthy (fetch_outcome w (count is_fetch t) url options)) eqn:Hw.
    + rewrite (retry_loop_continue _ _ _ _ Hne Hw).
      destruct (IH (S attempt) (grow d) (t ++ [EFetch url options; ESleep d])%list)
        as (k & Hk & Hs); [lia|lia|].
      exists (S k). split; [lia|]. rewrite Hs. cbn [retry_events].
      now rewrite <- app_assoc.
    + exists 0. split; [lia|].
      destruct (fetch_outcome w (count is_fetch t) url options) as [res|e] eqn:Ho;
        [|discriminate].
      now rewrite (retry_loop_response _ _ _ _ _ Ho (or_introl Hw)).
Qed.

(** With at least one attempt allowed the call never returns [undefined]. *)
Lemma retry_loop_returns (remaining : nat) :
  forall (attempt : nat) (d : float) (t : trace),
    attempt + remaining = S retries ->
    1 <= remaining ->
    fst (retry_loop w url options retries remaining attempt d t) <> Ok None.
Proof.
  induction remaining as [|r IH]; intros attempt d t Hinv Hpos; [lia|].
  destruct (Nat.eq_dec attempt retries) as [Heq|Hne].
  - subst attempt.
    destruct (fetch_outcome w (count is_fetch t) url options) as [res|e] eqn:Ho.
    + rewrite (retry_loop_response _ _ _ _ _ Ho (or_intror eq_refl)). discriminate.
    + rewrite (retry_loop_error _ _ _ _ Ho). discriminate.
  - destruct (retry_worthy (fetch_outcome w (count is_fetch t) url options)) eqn:Hw.
    + rewrite (retry_loop_continue _ _ _ _ Hne Hw). apply IH; lia.
    + destruct (fetch_outcome w (count is_fetch t) url options) as [res|e] eqn:Ho;
        [|discriminate].
      rewrite (retry_loop_response _ _ _ _ _ Ho (or_introl Hw)). discriminate.
Qed.

(** The call throws exactly when every earlier attempt was retried and the
    last attempt met a transport error. *)
Lemma retry_loop_throws (remaining : nat) :
  forall (attempt : nat) (d : float) (t : trace) (e : Error),
    attempt + remaining = S retries ->
    1 <= remaining ->
    (fst (retry_loop w url options retries remaining attempt d t) = Throw e
     <-> (forall i, i < remaining - 1 -> retry_worthy (outcome_at w url options t i) = true) /\
         outcome_at w url options t (remaining - 1) = Throw e).
Proof.
  induction remaining as [|r IH]; intros attempt d t e Hinv Hpos; [lia|].
  replace (S r - 1) with r by lia.
  destruct (Nat.eq_dec attempt retries) as [Heq|Hne].
  - subst attempt. assert (r = 0) by lia. subst r. rewrite outcome_at_0.
    destruct (fetch_outcome w (count is_fetch t) url options) as [res|e'] eqn:Ho.
    + rewrite (retry_loop_response _ _ _ _ _ Ho (or_intror eq_refl)). cbn [fst].
      split; [discriminate|intros [_ H]; discriminate].
    + rewrite (retry_loop_error _ _ _ _ Ho). cbn [fst].
      split; [intros H; split; [intros i Hi; lia|congruence]|intros [_ H]; congruence].
  - destruct r as [|r]; [lia|].
    destruct (retry_worthy (fetch_outcome w (count is_fetch t) url options)) eqn:Hw.
    + rewrite (retry_loop_continue _ _ _ _ Hne Hw).
      rewrite (IH (S attempt) (grow d) _ e) by lia.
      replace (S r - 1) with r by lia. rewrite outcome_at_next.
      split; intros [Ha Hb]; (split; [|exact Hb]).
      * intros [|i] Hi; [now rewrite outcome_at_0|].
        rewrite <- (outcome_at_next t d). apply Ha. lia.
      * intros i Hi. rewrite outcome_at_next. apply Ha. lia.
    + destruct (fetch_outcome w (count is_fetch t) url options) as [res|e'] eqn:Ho;
        [|discriminate].
      rewrite (retry_loop_response _ _ _ _ _ Ho (or_introl Hw)). cbn [fst].
      split; [discriminate|]. intros [Ha _].
      specialize (Ha 0 ltac:(lia)). rewrite outcome_at_0, Ho in Ha.
      congruence.
Qed.

End RetryFacts.

Lemma includes_In (l : list Z) (x : Z) : includes l x = true <-> In x l.
Proof.
  unfold includes. rewrite existsb_exists. split.
  - intros (y & Hin & Heq). apply Z.eqb_eq in Heq. now subst.
  - intros Hin. exists x. split; [assumption|apply Z.eqb_refl].
Qed.

Lemma includes_not_In (l : list Z) (x : Z) : includes l x = false <-> ~ In x l.
Proof.
  rewrite <- includes_In. destruct (includes l x); split; congruence.
Qed.

(** C1: when every attempt is answered with a retryable status (429, 500,
    502, 503, 504), [fetchWithRetry] issues exactly [retries] fetches and
    returns the last response; a wait follows every attempt but the last, and
    the waits are 600, 600 * 1.8, ... (each the previous one times 1.8).
    When the first response has a status outside that set, exactly one
    fetch is issued and that response is returned at once. *)
Theorem retry_schedule (w : World) (url : string) (options : RequestInit)
    (retries : nat) (t : trace) :
  1 <= retries ->
  ((forall i, exists res,
       fetch_outcome w i url options = Ok res /\ In (status res) RETRYABLE) ->
   exists res new,
     fetchWithRetry w url options retries t = (Ok (Some res), (t ++ new)%list) /\
     outcome_at w url options t (retries - 1) = Ok res /\
     new = (retry_events url options (retries - 1) INITIAL_DELAY
            ++ [EFetch url options])%list /\
     count is_fetch new = retries /\
     delays new = schedule INITIAL_DELAY (retries - 1) /\
     geometric (delays new)) /\
  (forall res,
      fetch_outcome w (count is_fetch t) url options = Ok res ->
      ~ In (status res) RETRYABLE ->
      fetchWithRetry w url options retries t
      = (Ok (Some res), (t ++ [EFetch url options])%list)).
Proof.
  intros Hpos. split.
  - intros Hall.
    destruct (Hall (count is_fetch t + (retries - 1))) as (res & Hres & Hin).
    exists res, (retry_events url options (retries - 1) INITIAL_DELAY
                 ++ [EFetch url options])%list.
    assert (Hrun : forall i, i < retries - 1 ->
                     retry_worthy (outcome_at w url options t i) = true).
    { intros i _. unfold outcome_at.
      destruct (Hall (count is_fetch t + i)) as (r & -> & Hr).
      now apply includes_In. }
    destruct (retry_loop_run w url options retries (retries - 1) 1 1
                INITIAL_DELAY t Hrun ltac:(lia)) as [d' Hd'].
    repeat split.
    + unfold fetchWithRetry.
      replace retries with (retries - 1 + 1) at 2 by lia. rewrite Hd'.
      replace (1 + (retries - 1)) with retries by lia.
      rewrite retry_loop_response with (res := res).
      * now rewrite <- app_assoc.
      * rewrite count_app, count_fetch_retry_events. exact Hres.
      * now right.
    + exact Hres.
    + rewrite count_app, count_fetch_retry_events.
      change (count is_fetch [EFetch url options]) with 1. lia.
    + rewrite delays_app, delays_retry_events. cbn [delays]. apply app_nil_r.
    + rewrite delays_app, delays_retry_events. cbn [delays]. rewrite app_nil_r.
      apply schedule_geometric.
  - intros res Hres Hnot. unfold fetchWithRetry.
    destruct retries as [|n]; [lia|].
    apply retry_loop_response; [exact Hres|left; now apply includes_not_In].
Qed.

Lemma retry_schedule_witness :
  (exists res new,
      fetchWithRetry Samples.always_busy Samples.url Samples.options 7 []
      = (Ok (Some res), new) /\
      count is_fetch new = 7 /\
      delays new = [600; 1080; 1944; 3499.2000000000003; 6298.5600000000004;
                    11337.408000000001]%float) /\
  fetchWithRetry Samples.always_not_found Samples.url Samples.options 7 []
  = (Ok (Some Samples.not_found), [EFetch Samples.url Samples.options]).
Proof.
  split.
  - destruct (retry_schedule Samples.always_busy Samples.url Samples.options 7 [])
      as [H _]; [lia|].
    destruct H as (res & new & Hrun & _ & _ & Hcount & Hdelays & _).
    + intros i. exists Samples.busy. split; [reflexivity|].
      right; right; right; left; reflexivity.
    + exists res, new. repeat split; assumption.
  - destruct (retry_schedule Samples.always_not_found Samples.url Samples.options
                7 []) as [_ H]; [lia|].
    apply (H Samples.not_found); [reflexivity|].
    intros [H'|[H'|[H'|[H'|[H'|[]]]]]]; discriminate H'.
Defined.

(** The trace of one call of [fetchWithRetry]. *)
Lemma fetchWithRetry_trace (w : World) (url : string) (options : RequestInit)
    (retries : nat) (t : trace) :
  1 <= retries ->
  exists k,
    k < retries /\
    snd (fetchWithRetry w url options retries t)
    = (t ++ retry_events url options k INITIAL_DELAY ++ [EFetch url options])%list.
Proof.
  intros Hpos. unfold fetchWithRetry. apply retry_loop_shape; lia.
Qed.

Lemma fetchWithRetry_returns (w : World) (url : string) (options : RequestInit)
    (retries : nat) (t : trace) :
  1 <= retries ->
  fst (fetchWithRetry w url options retries t) <> Ok None.
Proof.
  intros Hpos. unfold fetchWithRetry. apply retry_loop_returns; lia.
Qed.

(** C4: with at least one attempt allowed, [fetchWithRetry] (1) throws
    exactly when every earlier attempt was retried and the transport fails
    on the last attempt, and then throws that error; (2) returns a response
    whenever every attempt it makes is answered with a status; (3) returns
    the last response unchanged when the attempts run out, whatever its
    status; (4) on an attempt that is not the last, swallows a transport
    error, waits the current delay and goes on with the next attempt. *)
Theorem send_fails_only_on_final_transport_error (w : World) (url : string)
    (options : RequestInit) (retries : nat) (t : trace) :
  1 <= retries ->
  (forall e,
      fst (fetchWithRetry w url options retries t) = Throw e
      <-> (forall i, i < retries - 1 ->
                     retry_worthy (outcome_at w url options t i) = true) /\
          outcome_at w url options t (retries - 1) = Throw e) /\
  ((forall i, i < retries -> exists res, outcome_at w url options t i = Ok res) ->
   exists res, fst (fetchWithRetry w url options retries t) = Ok (Some res)) /\
  (forall res,
      (forall i, i < retries - 1 ->
                 retry_worthy (outcome_at w url options t i) = true) ->
      outcome_at w url options t (retries - 1) = Ok res ->
      fst (fetchWithRetry w url options retries t) = Ok (Some res)) /\
  (forall k attempt d t0 e,
      attempt <> retries ->
      fetch_outcome w (count is_fetch t0) url options = Throw e ->
      retry_loop w url options retries (S k) attempt d t0
      = retry_loop w url options retries k (S attempt) (grow d)
          (t0 ++ [EFetch url options; ESleep d])%list).
Proof.
  intros Hpos.
  assert (Hthrows : forall e,
             fst (fetchWithRetry w url options retries t) = Throw e
             <-> (forall i, i < retries - 1 ->
                            retry_worthy (outcome_at w url options t i) = true) /\
                 outcome_at w url options t (retries - 1) = Throw e).
  { intros e. unfold fetchWithRetry. apply retry_loop_throws; lia. }
  split; [exact Hthrows|]. split; [|split].
  - intros Hall.
    destruct (fst (fetchWithRetry w url options retries t)) as [[res|]|e] eqn:E.
    + now exists res.
    + now elim (fetchWithRetry_returns w url options retries t Hpos).
    + destruct (proj1 (Hthrows e) eq_refl) as [_ E'].
      destruct (Hall (retries - 1) ltac:(lia)) as [res Hres]. congruence.
  - intros res Hrun Hres.
    destruct (retry_loop_run w url options retries (retries - 1) 1 1
                INITIAL_DELAY t Hrun ltac:(lia)) as [d' Hd'].
    unfold fetchWithRetry.
    replace retries with (retries - 1 + 1) at 2 by lia. rewrite Hd'.
    replace (1 + (retries - 1)) with retries by lia.
    rewrite retry_loop_response with (res := res); [reflexivity| |now right].
    rewrite count_app, count_fetch_retry_events. exact Hres.
  - intros k attempt d t0 e Hne Ho. apply retry_loop_continue; [exact Hne|].
    now rewrite Ho.
Qed.

Lemma send_fails_only_on_final_transport_error_witness :
  fst (fetchWithRetry Samples.dropping Samples.url Samples.options 7 [])
  = Throw Samples.reset /\
  fst (fetchWithRetry Samples.always_busy Samples.url Samples.options 7 [])
  = Ok (Some Samples.busy).
Proof.
  split.
  - destruct (send_fails_only_on_final_transport_error Samples.dropping
                Samples.url Samples.options 7 []) as [H _]; [lia|].
    apply H. split; [|reflexivity].
    intros i Hi.
    destruct i as [|[|[|[|[|[|i]]]]]]; try reflexivity. cbn in Hi. lia.
  - destruct (send_fails_only_on_final_transport_error Samples.always_busy
                Samples.url Samples.options 7 []) as (_ & _ & H & _); [lia|].
    apply H; [|reflexivity]. intros i _. reflexivity.
Defined.

(** ** Facts about the handler *)

Section HandlerFacts.

Variable NumberToString : float -> string.
Variable JSON_stringify : value -> string.
Variable w : World.
Variable env : Env.

Lemma credentials_with_key (modelName : string) (t : trace) :
  env_truthy (GOOGLE_API_KEY env) = true ->
  credentials NumberToString w env modelName t
  = (Ok ((modelEndpoint modelName ++ "?key=" ++ env_text (GOOGLE_API_KEY env))%string,
         [CONTENT_TYPE]), t).
Proof. intros H. unfold credentials. now rewrite H. Qed.

Lemma credentials_without_key (modelName : string) (t : trace) :
  env_truthy (GOOGLE_API_KEY env) = false ->
  credentials NumberToString w env modelName t
  = match service_account NumberToString w [CONTENT_TYPE] t with
    | (Ok headers', t') => (Ok (modelEndpoint modelName, headers'), t')
    | (Throw e, t') => (Throw e, t')
    end.
Proof. intros H. unfold credentials. rewrite H. reflexivity. Qed.

(** The token exchange: both auth calls in order, and on success the header
    built from the token just obtained. *)
Lemma service_account_run (headers : list (string * string)) (t : trace) :
  (exists e,
      service_account NumberToString w headers t = (Throw e, (t ++ [EGetClient])%list))
  \/ (exists e,
         service_account NumberToString w headers t
         = (Throw e, (t ++ [EGetClient; EGetAccessToken])%list))
  \/ (exists accessToken tok s,
         getAccessToken_outcome w (count is_getAccessToken t) = Ok accessToken /\
         member accessToken (KName "token") = Ok tok /\
         ToString NumberToString (or_else tok accessToken) = Ok s /\
         service_account NumberToString w headers t
         = (Ok (headers ++ [("Authorization", ("Bearer " ++ s)%string)])%list,
            (t ++ [EGetClient; EGetAccessToken])%list)).
Proof.
  unfold service_account, bind, getClient, getAccessToken, lift, ret.
  destruct (getClient_outcome w (count is_getClient t)) as [[]|e]; [|left; eauto].
  right. rewrite count_app. change (count is_getAccessToken [EGetClient]) with 0.
  rewrite Nat.add_0_r, <- app_assoc. cbn [app].
  destruct (getAccessToken_outcome w (count is_getAccessToken t)) as [a|e];
    [|left; eauto].
  destruct (member a (KName "token")) as [tok|e] eqn:Hm; [|left; eauto].
  destruct (ToString NumberToString (or_else tok a)) as [s|e] eqn:Hs; [|left; eauto].
  right. exists a, tok, s. repeat split; assumption.
Qed.

(** [settle] touches neither the network nor the auth client. *)
Lemma settle_trace (modelName : string) (gresp : option Response) (t : trace) :
  snd (settle NumberToString modelName gresp t) = t.
Proof.
  unfold settle. destruct gresp as [r|]; [|reflexivity].
  destruct (ok r); cbn [negb].
  - unfold bind, lift. destruct (json_outcome r); reflexivity.
  - destruct (modelName =? FALLBACK_MODEL)%string; reflexivity.
Qed.

Lemma try_model_trace_eq (prompt : value) (modelName : string) (t : trace) :
  snd (try_model NumberToString JSON_stringify w env prompt modelName t)
  = snd (send_model NumberToString JSON_stringify w env prompt modelName t).
Proof.
  unfold try_model, bind.
  destruct (send_model NumberToString JSON_stringify w env prompt modelName t)
    as [[gresp|e] t']; [|reflexivity].
  apply settle_trace.
Qed.

(** One pass adds an [attempt_trace]. *)
Lemma send_model_trace (prompt : value) (modelName : string) (t : trace) :
  exists new,
    snd (send_model NumberToString JSON_stringify w env prompt modelName t)
    = (t ++ new)%list /\
    attempt_trace JSON_stringify env prompt modelName new.
Proof.
  unfold send_model, bind.
  destruct (env_truthy (GOOGLE_API_KEY env)) eqn:Hk.
  - rewrite (credentials_with_key _ _ Hk). cbn [fst snd].
    destruct (fetchWithRetry_trace w
                (modelEndpoint modelName ++ "?key=" ++ env_text (GOOGLE_API_KEY env))
                (request_init JSON_stringify [CONTENT_TYPE] prompt) 7 t)
      as (k & Hlt & Hs); [lia|].
    eexists. split; [exact Hs|]. now apply attempt_with_key.
  - rewrite (credentials_without_key _ _ Hk).
    destruct (service_account_run [CONTENT_TYPE] t)
      as [[e He]|[[e He]|(a & tok & s & _ & _ & _ & He)]]; rewrite He.
    + eexists. split; [reflexivity|]. now apply attempt_no_client.
    + eexists. split; [reflexivity|]. now apply attempt_no_token.
    + cbn [fst snd app].
      destruct (fetchWithRetry_trace w (modelEndpoint modelName)
                  (request_init JSON_stringify (bearer_headers s) prompt)
                  7 (t ++ [EGetClient; EGetAccessToken])%list)
        as (k & Hlt & Hs); [lia|].
      eexists. split; [|exact (attempt_with_token _ _ _ _ s k Hk Hlt)].
      fold (bearer_headers s). rewrite Hs. now rewrite <- app_assoc.
Qed.

(** The two passes of the model loop. *)
Lemma try_models_trace (prompt : value) (t : trace) :
  exists new,
    snd (try_models NumberToString JSON_stringify w env prompt modelsToTry t)
    = (t ++ new)%list /\
    (attempt_trace JSON_stringify env prompt PRIMARY_MODEL new \/
     exists n1 n2,
       new = (n1 ++ n2)%list /\
       attempt_trace JSON_stringify env prompt PRIMARY_MODEL n1 /\
       attempt_trace JSON_stringify env prompt FALLBACK_MODEL n2).
Proof.
  destruct (send_model_trace prompt PRIMARY_MODEL t) as (n1 & H1 & A1).
  rewrite <- try_model_trace_eq in H1.
  unfold modelsToTry. cbn [try_models]. unfold bind at 1.
  destruct (try_model NumberToString JSON_stringify w env prompt PRIMARY_MODEL t)
    as [[[r|]|e] t1]; cbn [snd] in H1; subst t1.
  - exists n1. split; [reflexivity|now left].
  - destruct (send_model_trace prompt FALLBACK_MODEL (t ++ n1)%list) as (n2 & H2 & A2).
    rewrite <- try_model_trace_eq in H2.
    exists (n1 ++ n2)%list. split; [|right; now exists n1, n2].
    rewrite app_assoc, <- H2. unfold bind.
    destruct (try_model NumberToString JSON_stringify w env prompt FALLBACK_MODEL
                (t ++ n1)%list) as [[[r|]|e] t2]; reflexivity.
  - exists n1. split; [reflexivity|now left].
Qed.

(** A request with a truthy prompt runs the model loop. *)
Lemma handler_truthy (reqBody prompt : value) (t : trace) :
  member reqBody (KName "prompt") = Ok prompt ->
  truthy prompt = true ->
  handler NumberToString JSON_stringify w env reqBody t
  = match try_models NumberToString JSON_stringify w env prompt modelsToTry t with
    | (Ok r, t') => (r, t')
    | (Throw err, t') => (Some (mkHttp 500 (InternalError (err_toString err))), t')
    end.
Proof.
  intros Hm Ht. unfold handler, generate, bind, lift. rewrite Hm, Ht. reflexivity.
Qed.

(** A request with a falsy prompt is answered 400 at once. *)
Lemma handler_falsy (reqBody prompt : value) (t : trace) :
  member reqBody (KName "prompt") = Ok prompt ->
  truthy prompt = false ->
  handler NumberToString JSON_stringify w env reqBody t
  = (Some (mkHttp 400 MissingPrompt), t).
Proof.
  intros Hm Ht. unfold handler, generate, bind, lift. rewrite Hm, Ht. reflexivity.
Qed.

Lemma handler_run_truthy (reqBody prompt : value) (t : trace) :
  member reqBody (KName "prompt") = Ok prompt ->
  truthy prompt = true ->
  exists new,
    snd (handler NumberToString JSON_stringify w env reqBody t) = (t ++ new)%list /\
    (attempt_trace JSON_stringify env prompt PRIMARY_MODEL new \/
     exists n1 n2,
       new = (n1 ++ n2)%list /\
       attempt_trace JSON_stringify env prompt PRIMARY_MODEL n1 /\
       attempt_trace JSON_stringify env prompt FALLBACK_MODEL n2).
Proof.
  intros Hm Ht. rewrite (handler_truthy _ _ _ Hm Ht).
  destruct (try_models_trace prompt t) as (new & Hs & Hshape).
  exists new. split; [|exact Hshape].
  destruct (try_models NumberToString JSON_stringify w env prompt modelsToTry t)
    as [[r|e] t']; exact Hs.
Qed.

(** Every run of the handler adds a [handler_trace]. *)
Lemma handler_run (reqBody : value) (t : trace) :
  exists new,
    snd (handler NumberToString JSON_stringify w env reqBody t) = (t ++ new)%list /\
    handler_trace JSON_stringify env reqBody new.
Proof.
  destruct (member reqBody (KName "prompt")) as [prompt|e] eqn:Hm.
  - destruct (truthy prompt) eqn:Ht.
    + destruct (handler_run_truthy _ _ t Hm Ht) as (new & Hs & Hshape).
      exists new. split; [exact Hs|]. right. now exists prompt.
    + exists []. rewrite (handler_falsy _ _ _ Hm Ht), app_nil_r.
      split; [reflexivity|now left].
  - exists []. unfold handler, generate, bind, lift. rewrite Hm, app_nil_r.
    split; [reflexivity|now left].
Qed.

(** The statuses the model loop answers with. *)
Lemma try_models_codes (prompt : value) (models : list string) (t : trace) :
  forall r t',
    try_models NumberToString JSON_stringify w env prompt models t = (Ok (Some r), t') ->
    code r = 502%Z \/ code r = 200%Z.
Proof.
  revert t. induction models as [|m rest IH]; intros t r t' H.
  - discriminate H.
  - cbn [try_models] in H. unfold bind at 1 in H. unfold try_model, bind at 1 in H.
    destruct (send_model NumberToString JSON_stringify w env prompt m t)
      as [[gresp|e] t1]; [|discriminate H].
    unfold settle in H. destruct gresp as [g|]; [|discriminate H].
    destruct (ok g); cbn [negb] in H.
    + unfold bind, lift in H. destruct (json_outcome g); [|discriminate H].
      unfold ret in H. injection H as <- _. now right.
    + destruct (m =? FALLBACK_MODEL)%string.
      * unfold ret in H. injection H as <- _. now left.
      * unfold ret in H. exact (IH _ _ _ H).
Qed.

End HandlerFacts.

(** ** Facts about attempt traces *)

Lemma In_retry_events url options k d e :
  In e (retry_events url options k d) ->
  e = EFetch url options \/ exists ms, e = ESleep ms.
Proof.
  revert d; induction k as [|k IH]; intros d H; [destruct H|].
  cbn [retry_events] in H. destruct H as [<-|[<-|H]]; eauto.
Qed.

(** Each pass waits along one schedule that starts at 600. *)
Lemma attempt_trace_delays JSON_stringify env prompt modelName new :
  attempt_trace JSON_stringify env prompt modelName new ->
  exists k, k < 7 /\ delays new = schedule INITIAL_DELAY k.
Proof.
  intros [k Hk Hlt|Hk|Hk|s k Hk Hlt].
  - exists k. split; [exact Hlt|].
    rewrite delays_app, delays_retry_events. apply app_nil_r.
  - exists 0. split; [lia|reflexivity].
  - exists 0. split; [lia|reflexivity].
  - exists k. split; [exact Hlt|]. cbn [app delays].
    rewrite delays_app, delays_retry_events. apply app_nil_r.
Qed.

(** Every fetch of a pass carries the prompt in the serialized body and
    goes to the endpoint of the model, with or without the key. *)
Lemma attempt_trace_fetches JSON_stringify env prompt modelName new url init :
  attempt_trace JSON_stringify env prompt modelName new ->
  In (EFetch url init) new ->
  body init = JSON_stringify (request_body prompt) /\
  (url = modelEndpoint modelName \/
   url = modelEndpoint modelName ++ "?key=" ++ env_text (GOOGLE_API_KEY env)).
Proof.
  intros [k Hk Hlt|Hk|Hk|s k Hk Hlt] Hin.
  - apply in_app_or in Hin. destruct Hin as [Hin|[Hin|[]]].
    + apply In_retry_events in Hin. destruct Hin as [Hin|[ms Hin]]; [|discriminate].
      injection Hin as -> ->. split; [reflexivity|now right].
    + injection Hin as <- <-. split; [reflexivity|now right].
  - destruct Hin as [Hin|[]]; discriminate.
  - destruct Hin as [Hin|[Hin|[]]]; discriminate.
  - cbn [app] in Hin. destruct Hin as [Hin|[Hin|Hin]]; try discriminate.
    apply in_app_or in Hin. destruct Hin as [Hin|[Hin|[]]].
    + apply In_retry_events in Hin. destruct Hin as [Hin|[ms Hin]]; [|discriminate].
      injection Hin as -> ->. split; [reflexivity|now left].
    + injection Hin as <- <-. split; [reflexivity|now left].
Qed.

(** With an API key a pass makes no auth call, fetches only the keyed url
    with the plain headers, and fetches at least once. *)
Lemma attempt_trace_with_key JSON_stringify env prompt modelName new :
  env_truthy (GOOGLE_API_KEY env) = true ->
  attempt_trace JSON_stringify env prompt modelName new ->
  count is_getClient new = 0 /\
  count is_getAccessToken new = 0 /\
  1 <= count is_fetch new /\
  (forall url init,
      In (EFetch url init) new ->
      url = modelEndpoint modelName ++ "?key=" ++ env_text (GOOGLE_API_KEY env) /\
      headers init = [CONTENT_TYPE]).
Proof.
  intros Hkey [k Hk Hlt|Hk|Hk|s k Hk Hlt]; try congruence.
  destruct (count_no_auth_retry_events
              (modelEndpoint modelName ++ "?key=" ++ env_text (GOOGLE_API_KEY env))
              (request_init JSON_stringify [CONTENT_TYPE] prompt) k INITIAL_DELAY)
    as [H1 H2].
  repeat split.
  - rewrite count_app, H1. reflexivity.
  - rewrite count_app, H2. reflexivity.
  - rewrite count_app, count_fetch_retry_events. cbn. lia.
  - apply in_app_or in H. destruct H as [H|[H|[]]].
    + apply In_retry_events in H. destruct H as [H|[ms H]]; [|discriminate].
      now injection H as -> ->.
    + now injection H as <- <-.
  - apply in_app_or in H. destruct H as [H|[H|[]]].
    + apply In_retry_events in H. destruct H as [H|[ms H]]; [|discriminate].
      now injection H as -> ->.
    + now injection H as <- <-.
Qed.

(** ** Prompt validation *)

Lemma truthy_false_iff (v : value) :
  truthy v = false
  <-> v = VUndefined \/ v = VNull \/ v = VBool false \/ v = VStr "" \/
      exists n, v = VNum n /\ (PrimFloat.eqb n 0 = true \/ PrimFloat.eqb n n = false).
Proof.
  split.
  - destruct v as [| |b|n|s|l|fs]; cbn [truthy]; intros H; try discriminate; auto.
    + subst b. auto.
    + do 4 right. exists n. split; [reflexivity|].
      apply negb_false_iff, orb_true_iff in H.
      destruct H as [H|H]; [now left|right]. now apply negb_true_iff.
    + apply negb_false_iff, String.eqb_eq in H. subst s. auto.
  - intros [->|[->|[->|[->|(n & -> & H)]]]]; try reflexivity.
    cbn [truthy]. apply negb_false_iff, orb_true_iff.
    destruct H as [H|H]; [now left|right]. now apply negb_true_iff.
Qed.

(** C5: a request body whose [prompt] field is absent or the empty string
    is answered 400 with [{ error: "Missing prompt" }], and the trace is left
    as it was: no auth call and no fetch is made. *)
Theorem missing_prompt_rejected (NumberToString : float -> string)
    (JSON_stringify : value -> string) (w : World) (env : Env)
    (fields : list (string * value)) (t : trace) :
  lookup "prompt" fields = None \/ lookup "prompt" fields = Some (VStr "") ->
  handler NumberToString JSON_stringify w env (VObj fields) t
  = (Some (mkHttp 400 MissingPrompt), t).
Proof.
  intros H.
  apply handler_falsy with (prompt := field "prompt" fields); [reflexivity|].
  unfold field. destruct H as [-> | ->]; reflexivity.
Qed.

Lemma missing_prompt_rejected_witness :
  handler Samples.NumberToString Samples.JSON_stringify Samples.always_busy
    Samples.without_key (VObj [("prompt", VStr "")]) []
  = (Some (mkHttp 400 MissingPrompt), []) /\
  handler Samples.NumberToString Samples.JSON_stringify Samples.always_busy
    Samples.with_key (VObj []) []
  = (Some (mkHttp 400 MissingPrompt), []).
Proof.
  split.
  - apply (missing_prompt_rejected Samples.NumberToString Samples.JSON_stringify
             Samples.always_busy Samples.without_key [("prompt", VStr "")] []).
    right. reflexivity.
  - apply (missing_prompt_rejected Samples.NumberToString Samples.JSON_stringify
             Samples.always_busy Samples.with_key [] []).
    left. reflexivity.
Defined.

(** C10: the handler answers 400 "Missing prompt" exactly when the
    destructured [prompt] is falsy: [undefined] (an absent field), [null],
    [false], the empty string, a zero or [NaN].  Any other prompt, string or
    not, goes on to the model loop, and every fetch then issued carries
    [JSON.stringify({ contents: [{ parts: [{ text: prompt }] }] })] as its
    body; with an API key configured at least one fetch is issued. *)
Theorem prompt_validation_is_truthiness (NumberToString : float -> string)
    (JSON_stringify : value -> string) (w : World) (env : Env)
    (reqBody prompt : value) (t : trace) :
  member reqBody (KName "prompt") = Ok prompt ->
  (fst (handler NumberToString JSON_stringify w env reqBody t)
   = Some (mkHttp 400 MissingPrompt)
   <-> prompt = VUndefined \/ prompt = VNull \/ prompt = VBool false \/
       prompt = VStr "" \/
       exists n, prompt = VNum n /\
                 (PrimFloat.eqb n 0 = true \/ PrimFloat.eqb n n = false)) /\
  (fst (handler NumberToString JSON_stringify w env reqBody t)
   <> Some (mkHttp 400 MissingPrompt) ->
   exists new,
     snd (handler NumberToString JSON_stringify w env reqBody t) = (t ++ new)%list /\
     (forall url init,
         In (EFetch url init) new ->
         body init
         = JSON_stringify
             (VObj [("contents",
                     VArr [VObj [("parts", VArr [VObj [("text", prompt)]])]])])) /\
     (env_truthy (GOOGLE_API_KEY env) = true -> 1 <= count is_fetch new)).
Proof.
  intros Hm.
  assert (Hrej : fst (handler NumberToString JSON_stringify w env reqBody t)
                 = Some (mkHttp 400 MissingPrompt) <-> truthy prompt = false).
  { destruct (truthy prompt) eqn:Ht.
    - split; [|discriminate]. rewrite (handler_truthy _ _ _ _ _ _ _ Hm Ht).
      destruct (try_models NumberToString JSON_stringify w env prompt modelsToTry t)
        as [[[r|]|e] t'] eqn:E; cbn [fst]; try discriminate.
      intros H. injection H as ->.
      destruct (try_models_codes _ _ _ _ _ _ _ _ _ E) as [H|H]; discriminate H.
    - rewrite (handler_falsy _ _ _ _ _ _ _ Hm Ht). split; reflexivity. }
  split.
  - rewrite Hrej. apply truthy_false_iff.
  - intros Hpass. destruct (truthy prompt) eqn:Ht.
    2:{ elim Hpass. now apply Hrej. }
    destruct (handler_run_truthy NumberToString JSON_stringify w env _ _ t Hm Ht)
      as (new & Hs & Hshape).
    exists new. split; [exact Hs|]. split.
    + intros url init Hin.
      destruct Hshape as [A|(n1 & n2 & -> & A1 & A2)].
      * exact (proj1 (attempt_trace_fetches _ _ _ _ _ _ _ A Hin)).
      * apply in_app_or in Hin. destruct Hin as [Hin|Hin].
        -- exact (proj1 (attempt_trace_fetches _ _ _ _ _ _ _ A1 Hin)).
        -- exact (proj1 (attempt_trace_fetches _ _ _ _ _ _ _ A2 Hin)).
    + intros Hkey. destruct Hshape as [A|(n1 & n2 & -> & A1 & A2)].
      * exact (proj1 (proj2 (proj2 (attempt_trace_with_key _ _ _ _ _ Hkey A)))).
      * rewrite count_app.
        pose proof (proj1 (proj2 (proj2 (attempt_trace_with_key _ _ _ _ _ Hkey A1)))).
        lia.
Qed.

Lemma prompt_validation_is_truthiness_witness :
  fst (handler Samples.NumberToString Samples.JSON_stringify Samples.always_not_found
         Samples.with_key (VObj [("prompt", VNum 0)]) [])
  = Some (mkHttp 400 MissingPrompt) /\
  fst (handler Samples.NumberToString Samples.JSON_stringify Samples.always_not_found
         Samples.with_key (VObj [("prompt", VStr "  ")]) [])
  <> Some (mkHttp 400 MissingPrompt).
Proof.
  split.
  - apply (prompt_validation_is_truthiness Samples.NumberToString
             Samples.JSON_stringify Samples.always_not_found Samples.with_key
             (VObj [("prompt", VNum 0)]) (VNum 0) [] eq_refl).
    do 4 right. exists 0%float. split; [reflexivity|left; reflexivity].
  - intros H.
    apply (prompt_validation_is_truthiness Samples.NumberToString
             Samples.JSON_stringify Samples.always_not_found Samples.with_key
             (VObj [("prompt", VStr "  ")]) (VStr "  ") [] eq_refl) in H.
    destruct H as [H|[H|[H|[H|(n & H & _)]]]]; discriminate H.
Defined.

(** ** Credentials *)

Lemma env_truthy_key (env : Env) (key : string) :
  GOOGLE_API_KEY env = Some key -> key <> "" ->
  env_truthy (GOOGLE_API_KEY env) = true /\ env_text (GOOGLE_API_KEY env) = key.
Proof.
  intros -> Hne. split; [|reflexivity]. cbn.
  apply negb_true_iff, String.eqb_neq. exact Hne.
Qed.

Lemma env_truthy_no_key (env : Env) :
  GOOGLE_API_KEY env = None \/ GOOGLE_API_KEY env = Some "" ->
  env_truthy (GOOGLE_API_KEY env) = false.
Proof. intros [-> | ->]; reflexivity. Qed.

(** C7: for one pass of the model loop (one dispatch attempt), (1) when an
    API key is set, whatever the auth client would answer, the request goes
    to the endpoint with [?key=<key>] appended and only the content-type
    header, no [getClient] or [getAccessToken] call is made in the pass nor
    in the whole run of the handler, and at least one fetch is made;
    (2) when no API key is set, the pass starts by calling the auth client,
    and when that yields a token the request is sent to the plain endpoint
    with [Authorization: Bearer <token>], the token being the one obtained
    in this very pass. *)
Theorem credential_precedence (NumberToString : float -> string)
    (JSON_stringify : value -> string) (w : World) (env : Env)
    (prompt : value) (modelName : string) (t : trace) :
  (forall key,
      GOOGLE_API_KEY env = Some key -> key <> "" ->
      send_model NumberToString JSON_stringify w env prompt modelName t
      = fetchWithRetry w (modelEndpoint modelName ++ "?key=" ++ key)
          (mkInit "POST" [CONTENT_TYPE] (JSON_stringify (request_body prompt))) 7 t /\
      (exists new,
          snd (send_model NumberToString JSON_stringify w env prompt modelName t)
          = (t ++ new)%list /\
          count is_getClient new = 0 /\
          count is_getAccessToken new = 0 /\
          1 <= count is_fetch new) /\
      (forall reqBody, exists new,
          snd (handler NumberToString JSON_stringify w env reqBody t)
          = (t ++ new)%list /\
          count is_getClient new = 0 /\
          count is_getAccessToken new = 0)) /\
  (GOOGLE_API_KEY env = None \/ GOOGLE_API_KEY env = Some "" ->
   (exists rest,
       snd (send_model NumberToString JSON_stringify w env prompt modelName t)
       = (t ++ EGetClient :: rest)%list) /\
   (forall accessToken tok s,
       getClient_outcome w (count is_getClient t) = Ok tt ->
       getAccessToken_outcome w (count is_getAccessToken t) = Ok accessToken ->
       member accessToken (KName "token") = Ok tok ->
       ToString NumberToString (or_else tok accessToken) = Ok s ->
       send_model NumberToString JSON_stringify w env prompt modelName t
       = fetchWithRetry w (modelEndpoint modelName)
           (mkInit "POST" [CONTENT_TYPE; ("Authorization", "Bearer " ++ s)]
              (JSON_stringify (request_body prompt)))
           7 (t ++ [EGetClient; EGetAccessToken])%list)).
Proof.
  split.
  - intros key Hkey Hne.
    destruct (env_truthy_key env key Hkey Hne) as [Ht Htext].
    split; [|split].
    + unfold send_model, bind. rewrite (credentials_with_key _ _ _ _ _ Ht), Htext.
      reflexivity.
    + destruct (send_model_trace NumberToString JSON_stringify w env prompt modelName t)
        as (new & Hs & A).
      exists new. split; [exact Hs|].
      destruct (attempt_trace_with_key _ _ _ _ _ Ht A) as (H1 & H2 & H3 & _).
      auto.
    + intros reqBody.
      destruct (handler_run NumberToString JSON_stringify w env reqBody t)
        as (new & Hs & Hshape).
      exists new. split; [exact Hs|].
      destruct Hshape as [->|(p & _ & _ & [A|(n1 & n2 & -> & A1 & A2)])].
      * split; reflexivity.
      * destruct (attempt_trace_with_key _ _ _ _ _ Ht A) as (H1 & H2 & _). auto.
      * destruct (attempt_trace_with_key _ _ _ _ _ Ht A1) as (H1 & H2 & _).
        destruct (attempt_trace_with_key _ _ _ _ _ Ht A2) as (H3 & H4 & _).
        rewrite !count_app, H1, H2, H3, H4. auto.
  - intros Hno. pose proof (env_truthy_no_key env Hno) as Hf. split.
    + destruct (send_model_trace NumberToString JSON_stringify w env prompt modelName t)
        as (new & Hs & A).
      rewrite Hs. destruct A as [k Hk Hlt|Hk|Hk|s k Hk Hlt]; try congruence;
        eexists; reflexivity.
    + intros accessToken tok s Hc Ha Hm Hs.
      unfold send_model, bind. rewrite (credentials_without_key _ _ _ _ _ Hf).
      unfold service_account, bind, getClient, getAccessToken, lift, ret.
      rewrite Hc. rewrite count_app. change (count is_getAccessToken [EGetClient]) with 0.
      rewrite Nat.add_0_r, Ha, Hm, Hs, <- app_assoc. reflexivity.
Qed.

Lemma credential_precedence_witness :
  fetched_urls
    (snd (send_model Samples.NumberToString Samples.JSON_stringify
            Samples.always_not_found Samples.with_key (VStr "hi") PRIMARY_MODEL []))
  = [modelEndpoint PRIMARY_MODEL ++ "?key=K3Y"] /\
  snd (send_model Samples.NumberToString Samples.JSON_stringify
         Samples.always_not_found Samples.without_key (VStr "hi") PRIMARY_MODEL [])
  = [EGetClient; EGetAccessToken;
     EFetch (modelEndpoint PRIMARY_MODEL)
       (mkInit "POST" [CONTENT_TYPE; ("Authorization", "Bearer ya29")]
          (Samples.JSON_stringify (request_body (VStr "hi"))))].
Proof.
  split.
  - destruct (credential_precedence Samples.NumberToString Samples.JSON_stringify
                Samples.always_not_found Samples.with_key (VStr "hi")
                PRIMARY_MODEL []) as [H _].
    destruct (H "K3Y" eq_refl ltac:(discriminate)) as (-> & _). reflexivity.
  - destruct (credential_precedence Samples.NumberToString Samples.JSON_stringify
                Samples.always_not_found Samples.without_key (VStr "hi")
                PRIMARY_MODEL []) as [_ H].
    destruct (H (or_introl eq_refl)) as [_ H'].
    rewrite (H' Samples.access_token (VStr "ya29") "ya29" eq_refl eq_refl eq_refl
               eq_refl).
    reflexivity.
Defined.

(** ** Backoff across the passes of one request *)

(** C8 (amended): within one call of [fetchWithRetry] (one pass of the
    model loop) the delay is multiplied by 1.8 before each retry and never
    set back: the waits are the first [k] terms of 600, 600 * 1.8, ..., with
    [k] below the number of attempts, and for the 7 attempts the handler
    allows every later wait exceeds 600.  The delay is local to the call:
    over one run of the handler the waits are two such schedules one after
    the other, each starting at 600 (the second one empty when the fallback
    model is not tried). *)
Theorem backoff_restarts_per_send (NumberToString : float -> string)
    (JSON_stringify : value -> string) (w : World) (env : Env) :
  (forall url options retries t,
      1 <= retries ->
      exists k new,
        k < retries /\
        snd (fetchWithRetry w url options retries t) = (t ++ new)%list /\
        delays new = schedule INITIAL_DELAY k /\
        geometric (delays new)) /\
  (forall i,
      0 < i < 6 ->
      PrimFloat.ltb INITIAL_DELAY (nth i (schedule INITIAL_DELAY 6) 0%float) = true) /\
  (forall reqBody t,
      exists k1 k2 new,
        k1 < 7 /\ k2 < 7 /\
        snd (handler NumberToString JSON_stringify w env reqBody t) = (t ++ new)%list /\
        delays new = (schedule INITIAL_DELAY k1 ++ schedule INITIAL_DELAY k2)%list).
Proof.
  split; [|split].
  - intros url options retries t Hpos.
    destruct (fetchWithRetry_trace w url options retries t Hpos) as (k & Hlt & Hs).
    exists k, (retry_events url options k INITIAL_DELAY ++ [EFetch url options])%list.
    assert (Hd : delays (retry_events url options k INITIAL_DELAY
                         ++ [EFetch url options])%list = schedule INITIAL_DELAY k).
    { rewrite delays_app, delays_retry_events. apply app_nil_r. }
    repeat split; [exact Hlt|exact Hs|exact Hd|].
    rewrite Hd. apply schedule_geometric.
  - intros i [Hlo Hhi].
    destruct i as [|[|[|[|[|[|i]]]]]]; try lia; reflexivity.
  - intros reqBody t.
    destruct (handler_run NumberToString JSON_stringify w env reqBody t)
      as (new & Hs & Hshape).
    destruct Hshape as [->|(p & _ & _ & [A|(n1 & n2 & -> & A1 & A2)])].
    + exists 0, 0, []. repeat split; [lia|lia|exact Hs].
    + destruct (attempt_trace_delays _ _ _ _ _ A) as (k & Hlt & Hd).
      exists k, 0, new. repeat split; [exact Hlt|lia|exact Hs|].
      rewrite Hd. cbn [schedule]. now rewrite app_nil_r.
    + destruct (attempt_trace_delays _ _ _ _ _ A1) as (k1 & Hlt1 & Hd1).
      destruct (attempt_trace_delays _ _ _ _ _ A2) as (k2 & Hlt2 & Hd2).
      exists k1, k2, (n1 ++ n2)%list. repeat split; [exact Hlt1|exact Hlt2|exact Hs|].
      now rewrite delays_app, Hd1, Hd2.
Qed.

Lemma backoff_restarts_per_send_witness :
  exists k new,
    k < 7 /\
    snd (fetchWithRetry Samples.dropping Samples.url Samples.options 7 [])
    = ([] ++ new)%list /\
    delays new = schedule INITIAL_DELAY k /\
    geometric (delays new).
Proof.
  destruct (backoff_restarts_per_send Samples.NumberToString Samples.JSON_stringify
              Samples.dropping Samples.with_key) as [H _].
  apply (H Samples.url Samples.options 7 []). lia.
Defined.

(** C8 as stated fails: when every fetch is answered 503 the handler waits
    600, ..., 11337.408000000001 for the primary model and then 600 again for
    the fallback model: the seventh wait is the initial delay, not 1.8 times
    the sixth. *)
Lemma backoff_reset_counterexample :
  nth 5 (delays Samples.all_busy_run) 0%float = 11337.408000000001%float /\
  nth 6 (delays Samples.all_busy_run) 0%float = INITIAL_DELAY /\
  ~ geometric (delays Samples.all_busy_run).
Proof.
  split; [reflexivity|]. split; [reflexivity|].
  intros H. specialize (H 5). 
  assert (Hlen : 6 < List.length (delays Samples.all_busy_run)) by (vm_compute; lia).
  specialize (H Hlen).
  apply (f_equal (fun x => PrimFloat.eqb x INITIAL_DELAY)) in H.
  vm_compute in H. discriminate H.
Qed.

(** ** Fallback and transport errors *)

(** A transport error that survives to the last attempt ends the call. *)
Lemma fetchWithRetry_exhausted_error (w : World) (url : string)
    (options : RequestInit) (retries : nat) (t : trace) (e : Error) :
  1 <= retries ->
  (forall i, i < retries - 1 -> retry_worthy (outcome_at w url options t i) = true) ->
  outcome_at w url options t (retries - 1) = Throw e ->
  fetchWithRetry w url options retries t
  = (Throw e,
     (t ++ retry_events url options (retries - 1) INITIAL_DELAY
        ++ [EFetch url options])%list).
Proof.
  intros Hpos Hrun He.
  destruct (retry_loop_run w url options retries (retries - 1) 1 1
              INITIAL_DELAY t Hrun ltac:(lia)) as [d' Hd'].
  unfold fetchWithRetry.
  replace retries with (retries - 1 + 1) at 2 by lia. rewrite Hd'.
  replace (1 + (retries - 1)) with retries by lia.
  rewrite retry_loop_error with (e := e); [now rewrite <- app_assoc|].
  rewrite count_app, count_fetch_retry_events. exact He.
Qed.

(** The url the credentials step yields for a model. *)
Lemma credentials_url (NumberToString : float -> string) (w : World) (env : Env)
    (modelName url : string) (hdrs : list (string * string)) (t t1 : trace) :
  credentials NumberToString w env modelName t = (Ok (url, hdrs), t1) ->
  url = modelEndpoint modelName \/
  url = modelEndpoint modelName ++ "?key=" ++ env_text (GOOGLE_API_KEY env).
Proof.
  intros H. destruct (env_truthy (GOOGLE_API_KEY env)) eqn:Hk.
  - rewrite (credentials_with_key _ _ _ _ _ Hk) in H. injection H as <- _ _. now right.
  - rewrite (credentials_without_key _ _ _ _ _ Hk) in H.
    destruct (service_account NumberToString w [CONTENT_TYPE] t) as [[h|e] t'];
      [|discriminate H].
    injection H as <- _ _. now left.
Qed.

(** An error thrown by the send for the first model of a list leaves the
    model loop at once. *)
Lemma try_models_throw (NumberToString : float -> string)
    (JSON_stringify : value -> string) (w : World) (env : Env) (prompt : value)
    (modelName : string) (rest : list string) (t t' : trace) (e : Error) :
  send_model NumberToString JSON_stringify w env prompt modelName t = (Throw e, t') ->
  try_models NumberToString JSON_stringify w env prompt (modelName :: rest) t
  = (Throw e, t').
Proof.
  intros H. cbn [try_models]. unfold bind at 1, try_model, bind. now rewrite H.
Qed.

(** C2: when the prompt is truthy, the credentials step for the primary
    model succeeds, and a transport error survives its seven attempts (the
    first six each end in a transport error or a retryable status, the
    seventh in the transport error [err]), the handler answers 500 with
    [err.toString()] and its trace stops at that seventh fetch: the seven
    fetches all go to the primary model's url, and nothing is done for the
    fallback model.  At any position in the model list, an error thrown by
    the send leaves the model loop at once. *)
Theorem transport_error_skips_fallback (NumberToString : float -> string)
    (JSON_stringify : value -> string) (w : World) (env : Env)
    (reqBody prompt : value) (t t1 : trace) (url : string)
    (hdrs : list (string * string)) (err : Error) :
  member reqBody (KName "prompt") = Ok prompt ->
  truthy prompt = true ->
  credentials NumberToString w env PRIMARY_MODEL t = (Ok (url, hdrs), t1) ->
  (forall i, i < 6 ->
     retry_worthy
       (outcome_at w url (request_init JSON_stringify hdrs prompt) t1 i) = true) ->
  outcome_at w url (request_init JSON_stringify hdrs prompt) t1 6 = Throw err ->
  handler NumberToString JSON_stringify w env reqBody t
  = (Some (mkHttp 500 (InternalError (err_toString err))),
     (t1 ++ retry_events url (request_init JSON_stringify hdrs prompt) 6 INITIAL_DELAY
         ++ [EFetch url (request_init JSON_stringify hdrs prompt)])%list) /\
  fetched_urls
    (retry_events url (request_init JSON_stringify hdrs prompt) 6 INITIAL_DELAY
     ++ [EFetch url (request_init JSON_stringify hdrs prompt)])%list
  = repeat url 7 /\
  String.prefix (modelEndpoint PRIMARY_MODEL) url = true /\
  String.prefix (modelEndpoint FALLBACK_MODEL) url = false /\
  (forall modelName rest t0 t0' e,
      send_model NumberToString JSON_stringify w env prompt modelName t0
      = (Throw e, t0') ->
      try_models NumberToString JSON_stringify w env prompt (modelName :: rest) t0
      = (Throw e, t0')).
Proof.
  intros Hm Ht Hc Hrun Herr.
  assert (Hsend : send_model NumberToString JSON_stringify w env prompt
                    PRIMARY_MODEL t
                  = (Throw err,
                     (t1 ++ retry_events url (request_init JSON_stringify hdrs prompt)
                              6 INITIAL_DELAY
                         ++ [EFetch url (request_init JSON_stringify hdrs prompt)])%list)).
  { unfold send_model, bind. rewrite Hc. cbn [fst snd].
    apply (fetchWithRetry_exhausted_error w url _ 7 t1 err); [lia|exact Hrun|exact Herr]. }
  split; [|split; [|split; [|split]]].
  - rewrite (handler_truthy _ _ _ _ _ _ _ Hm Ht). unfold modelsToTry.
    now rewrite (try_models_throw _ _ _ _ _ _ _ _ _ _ Hsend).
  - rewrite fetched_urls_app, fetched_urls_retry_events. reflexivity.
  - destruct (credentials_url _ _ _ _ _ _ _ _ Hc) as [-> | ->]; reflexivity.
  - destruct (credentials_url _ _ _ _ _ _ _ _ Hc) as [-> | ->]; reflexivity.
  - intros modelName rest t0 t0' e H. now apply try_models_throw.
Qed.

Lemma transport_error_skips_fallback_witness :
  handler Samples.NumberToString Samples.JSON_stringify Samples.dropping
    Samples.with_key Samples.hi_request []
  = (Some (mkHttp 500 (InternalError "FetchError: socket hang up")),
     (retry_events (modelEndpoint PRIMARY_MODEL ++ "?key=K3Y")
        (request_init Samples.JSON_stringify [CONTENT_TYPE] (VStr "hi")) 6
        INITIAL_DELAY
      ++ [EFetch (modelEndpoint PRIMARY_MODEL ++ "?key=K3Y")
            (request_init Samples.JSON_stringify [CONTENT_TYPE] (VStr "hi"))])%list).
Proof.
  refine (proj1 (transport_error_skips_fallback Samples.NumberToString
                   Samples.JSON_stringify Samples.dropping Samples.with_key
                   Samples.hi_request (VStr "hi") [] []
                   (modelEndpoint PRIMARY_MODEL ++ "?key=K3Y") [CONTENT_TYPE]
                   Samples.reset eq_refl eq_refl eq_refl _ eq_refl)).
  intros i Hi.
  destruct i as [|[|[|[|[|[|i]]]]]]; try reflexivity. lia.
Defined.

(** C3: when the prompt is truthy and the send for the primary model ends
    with a response that is not 2xx, the handler goes on to the fallback
    model: its trace is the one left by the send for the fallback model,
    which starts with the auth call or with the first fetch of the fallback
    request.  When that send too ends with a response that is not 2xx, the
    handler answers 502 with [{ error: "upstream error", status, body }],
    [status] and [body] being those of the fallback's response. *)
Theorem fallback_after_upstream_failure (NumberToString : float -> string)
    (JSON_stringify : value -> string) (w : World) (env : Env)
    (reqBody prompt : value) (t t1 : trace) (r1 : Response) :
  member reqBody (KName "prompt") = Ok prompt ->
  truthy prompt = true ->
  send_model NumberToString JSON_stringify w env prompt PRIMARY_MODEL t
  = (Ok (Some r1), t1) ->
  ok r1 = false ->
  snd (handler NumberToString JSON_stringify w env reqBody t)
  = snd (send_model NumberToString JSON_stringify w env prompt FALLBACK_MODEL t1) /\
  (exists rest,
      snd (handler NumberToString JSON_stringify w env reqBody t)
      = (t1 ++ EGetClient :: rest)%list \/
      snd (handler NumberToString JSON_stringify w env reqBody t)
      = (t1 ++ EFetch (modelEndpoint FALLBACK_MODEL ++ "?key="
                       ++ env_text (GOOGLE_API_KEY env))
                 (request_init JSON_stringify [CONTENT_TYPE] prompt) :: rest)%list) /\
  (forall r2 t2,
      send_model NumberToString JSON_stringify w env prompt FALLBACK_MODEL t1
      = (Ok (Some r2), t2) ->
      ok r2 = false ->
      handler NumberToString JSON_stringify w env reqBody t
      = (Some (mkHttp 502 (UpstreamError (status r2) (text_or_empty r2))), t2)).
Proof.
  intros Hm Ht Hsend Hok.
  assert (Hh : handler NumberToString JSON_stringify w env reqBody t
               = match try_model NumberToString JSON_stringify w env prompt
                         FALLBACK_MODEL t1 with
                 | (Ok (Respond r), t') => (Some r, t')
                 | (Ok NextModel, t') => (None, t')
                 | (Throw e, t') =>
                     (Some (mkHttp 500 (InternalError (err_toString e))), t')
                 end).
  { rewrite (handler_truthy _ _ _ _ _ _ _ Hm Ht). unfold modelsToTry.
    cbn [try_models]. unfold bind at 1, try_model at 1, bind at 1.
    rewrite Hsend. unfold settle at 1. rewrite Hok. cbn [negb].
    change (PRIMARY_MODEL =? FALLBACK_MODEL)%string with false. cbn iota.
    unfold ret at 1, bind at 1.
    destruct (try_model NumberToString JSON_stringify w env prompt FALLBACK_MODEL t1)
      as [[[r|]|e] t']; reflexivity. }
  assert (Hsnd : snd (handler NumberToString JSON_stringify w env reqBody t)
                 = snd (send_model NumberToString JSON_stringify w env prompt
                          FALLBACK_MODEL t1)).
  { rewrite Hh, <- try_model_trace_eq.
    destruct (try_model NumberToString JSON_stringify w env prompt FALLBACK_MODEL t1)
      as [[[r|]|e] t']; reflexivity. }
  split; [exact Hsnd|]. split.
  - rewrite Hsnd.
    destruct (send_model_trace NumberToString JSON_stringify w env prompt
                FALLBACK_MODEL t1) as (new & -> & A).
    destruct A as [k Hk Hlt|Hk|Hk|s k Hk Hlt].
    + destruct k as [|k]; eexists; right; reflexivity.
    + eexists; left; reflexivity.
    + eexists; left; reflexivity.
    + eexists; left; reflexivity.
  - intros r2 t2 Hsend2 Hok2. rewrite Hh. unfold try_model, bind.
    rewrite Hsend2. unfold settle. rewrite Hok2. cbn [negb].
    change (FALLBACK_MODEL =? FALLBACK_MODEL)%string with true. reflexivity.
Qed.

Lemma fallback_after_upstream_failure_witness :
  handler Samples.NumberToString Samples.JSON_stringify Samples.both_fail
    Samples.with_key Samples.hi_request []
  = (Some (mkHttp 502 (UpstreamError 503 "busy")),
     snd (send_model Samples.NumberToString Samples.JSON_stringify Samples.both_fail
            Samples.with_key (VStr "hi") FALLBACK_MODEL
            [EFetch (modelEndpoint PRIMARY_MODEL ++ "?key=K3Y")
               (request_init Samples.JSON_stringify [CONTENT_TYPE] (VStr "hi"))])).
Proof.
  destruct (fallback_after_upstream_failure Samples.NumberToString
              Samples.JSON_stringify Samples.both_fail Samples.with_key
              Samples.hi_request (VStr "hi") []
              [EFetch (modelEndpoint PRIMARY_MODEL ++ "?key=K3Y")
                 (request_init Samples.JSON_stringify [CONTENT_TYPE] (VStr "hi"))]
              Samples.not_found eq_refl eq_refl eq_refl eq_refl) as (_ & _ & H).
  apply (H Samples.busy); reflexivity.
Defined.

(** ** Further properties of fetchWithRetry *)

Lemma In_fetch_retry_events url options k d u o :
  In (EFetch u o) (retry_events url options k d) -> u = url /\ o = options.
Proof.
  intros H. apply In_retry_events in H. destruct H as [H|[ms H]]; [|discriminate].
  now injection H as -> ->.
Qed.

(** X1: transient failures are ridden out.  When the first [k] attempts
    ([k] below the number of attempts allowed) each end in a transport error
    or a retryable status, and the next fetch is answered with a status that
    is not retryable, that response is returned after exactly [k + 1]
    fetches and [k] waits of 600, 600 * 1.8, ... *)
Theorem first_settled_response_is_returned (w : World) (url : string)
    (options : RequestInit) (retries : nat) (t : trace) (k : nat) (res : Response) :
  k < retries ->
  (forall i, i < k -> retry_worthy (outcome_at w url options t i) = true) ->
  outcome_at w url options t k = Ok res ->
  ~ In (status res) RETRYABLE ->
  fetchWithRetry w url options retries t
  = (Ok (Some res),
     (t ++ retry_events url options k INITIAL_DELAY ++ [EFetch url options])%list).
Proof.
  intros Hlt Hrun Hres Hnot.
  destruct (retry_loop_run w url options retries k (retries - k) 1
              INITIAL_DELAY t Hrun ltac:(lia)) as [d' Hd'].
  unfold fetchWithRetry.
  replace retries with (k + (retries - k)) at 2 by lia. rewrite Hd'.
  destruct (retries - k) as [|r] eqn:E; [lia|].
  rewrite retry_loop_response with (res := res).
  - now rewrite <- app_assoc.
  - rewrite count_app, count_fetch_retry_events. exact Hres.
  - left. now apply includes_not_In.
Qed.

Lemma first_settled_response_is_returned_witness :
  fetchWithRetry Samples.recovering Samples.url Samples.options 7 []
  = (Ok (Some Samples.not_found),
     [EFetch Samples.url Samples.options; ESleep 600;
      EFetch Samples.url Samples.options; ESleep 1080;
      EFetch Samples.url Samples.options]).
Proof.
  apply (first_settled_response_is_returned Samples.recovering Samples.url
           Samples.options 7 [] 2 Samples.not_found).
  - lia.
  - intros i Hi. destruct i as [|[|i]]; [reflexivity|reflexivity|lia].
  - reflexivity.
  - intros [H|[H|[H|[H|[H|[]]]]]]; discriminate H.
Defined.



(** X3: the call returns [undefined] only when no attempt is allowed.
    With [retries = 0] the loop body never runs: nothing is fetched and
    [undefined] comes back; with any other [retries] the call ends with a
    response or a thrown error. *)
Theorem undefined_only_without_attempts (w : World) (url : string)
    (options : RequestInit) (retries : nat) (t : trace) :
  (fst (fetchWithRetry w url options retries t) = Ok None <-> retries = 0) /\
  fetchWithRetry w url options 0 t = (Ok None, t).
Proof.
  split; [|reflexivity]. split.
  - intros H. destruct retries as [|n]; [reflexivity|].
    now elim (fetchWithRetry_returns w url options (S n) t ltac:(lia)).
  - intros ->. reflexivity.
Qed.

(** ** Further properties of the handler *)

Section HandlerAnswers.

Variable NumberToString : float -> string.
Variable JSON_stringify : value -> string.
Variable w : World.
Variable env : Env.

Lemma extract_text_string_or_null (json : value) :
  extract_text NumberToString json = VNull \/
  exists s, extract_text NumberToString json = VStr s.
Proof.
  unfold extract_text, extract_attempt.
  destruct (array_map part_text (resolved_parts json)) as [texts|e]; cbn [rbind];
    [|now left].
  destruct (array_join NumberToString newline texts) as [s|e]; cbn [rbind];
    [right; now exists s|now left].
Qed.

(** How [settle] ends: with an answer, with a throw, or (never for the
    fallback model) by moving on. *)
Lemma settle_cases (modelName : string) (gresp : option Response) (t : trace) :
  (exists r,
      settle NumberToString modelName gresp t = (Ok (Respond r), t) /\
      answer_shape r) \/
  (settle NumberToString modelName gresp t = (Ok NextModel, t) /\
   (modelName =? FALLBACK_MODEL)%string = false) \/
  (exists e, settle NumberToString modelName gresp t = (Throw e, t)).
Proof.
  unfold settle. destruct gresp as [g|]; [|right; right; eexists; reflexivity].
  destruct (ok g); cbn [negb].
  - unfold bind, lift.
    destruct (json_outcome g) as [json|e]; [|right; right; eexists; reflexivity].
    left. eexists. split; [reflexivity|]. right; left. split; [reflexivity|].
    exists json, (extract_text NumberToString json).
    split; [reflexivity|apply extract_text_string_or_null].
  - destruct (modelName =? FALLBACK_MODEL)%string.
    + left. eexists. split; [reflexivity|]. right; right; left.
      split; [reflexivity|do 2 eexists; reflexivity].
    + right; left. split; reflexivity.
Qed.

Lemma try_model_cases (prompt : value) (modelName : string) (t : trace) :
  exists t',
    (exists r,
        try_model NumberToString JSON_stringify w env prompt modelName t
        = (Ok (Respond r), t') /\ answer_shape r) \/
    (try_model NumberToString JSON_stringify w env prompt modelName t
     = (Ok NextModel, t') /\ (modelName =? FALLBACK_MODEL)%string = false) \/
    (exists e,
        try_model NumberToString JSON_stringify w env prompt modelName t
        = (Throw e, t')).
Proof.
  unfold try_model, bind.
  destruct (send_model NumberToString JSON_stringify w env prompt modelName t)
    as [[g|e] t1]; [|exists t1; right; right; exists e; reflexivity].
  exists t1. destruct (settle_cases modelName g t1) as [(r & -> & Hr)|[[-> Hm]|[e ->]]].
  - left. exists r. split; [reflexivity|exact Hr].
  - right; left. split; [reflexivity|exact Hm].
  - right; right. exists e. reflexivity.
Qed.

(** The model loop over the two models always ends with an answer or a
    throw. *)
Lemma try_models_answers (prompt : value) (t : trace) :
  exists x t',
    try_models NumberToString JSON_stringify w env prompt modelsToTry t = (x, t') /\
    match x with
    | Ok (Some r) => answer_shape r
    | Ok None => False
    | Throw _ => True
    end.
Proof.
  unfold modelsToTry. cbn [try_models]. unfold bind at 1.
  destruct (try_model_cases prompt PRIMARY_MODEL t)
    as (t1 & [(r & -> & Hr)|[[-> _]|[e ->]]]).
  - exists (Ok (Some r)), t1. split; [reflexivity|exact Hr].
  - unfold bind at 1.
    destruct (try_model_cases prompt FALLBACK_MODEL t1)
      as (t2 & [(r & -> & Hr)|[[_ Hm]|[e ->]]]).
    + exists (Ok (Some r)), t2. split; [reflexivity|exact Hr].
    + discriminate Hm.
    + exists (Throw e), t2. split; [reflexivity|exact I].
  - exists (Throw e), t1. split; [reflexivity|exact I].
Qed.

(** The handler's run when the send for the primary model returns [g]. *)
Lemma handler_primary_response (reqBody prompt : value) (t t1 : trace)
    (g : Response) :
  member reqBody (KName "prompt") = Ok prompt ->
  truthy prompt = true ->
  send_model NumberToString JSON_stringify w env prompt PRIMARY_MODEL t
  = (Ok (Some g), t1) ->
  ok g = true ->
  handler NumberToString JSON_stringify w env reqBody t
  = match json_outcome g with
    | Ok json =>
        (Some (mkHttp 200 (Generated json (extract_text NumberToString json))), t1)
    | Throw e => (Some (mkHttp 500 (InternalError (err_toString e))), t1)
    end.
Proof.
  intros Hm Ht Hsend Hok. rewrite (handler_truthy _ _ _ _ _ _ _ Hm Ht).
  unfold modelsToTry. cbn [try_models]. unfold bind at 1, try_model, bind at 1.
  rewrite Hsend. unfold settle. rewrite Hok. cbn [negb]. unfold bind, lift.
  destruct (json_outcome g); reflexivity.
Qed.

(** The handler's run when the primary model failed with a status. *)
Lemma handler_after_primary_failure (reqBody prompt : value) (t t1 : trace)
    (r1 : Response) :
  member reqBody (KName "prompt") = Ok prompt ->
  truthy prompt = true ->
  send_model NumberToString JSON_stringify w env prompt PRIMARY_MODEL t
  = (Ok (Some r1), t1) ->
  ok r1 = false ->
  handler NumberToString JSON_stringify w env reqBody t
  = match try_model NumberToString JSON_stringify w env prompt FALLBACK_MODEL t1 with
    | (Ok (Respond r), t') => (Some r, t')
    | (Ok NextModel, t') => (None, t')
    | (Throw e, t') => (Some (mkHttp 500 (InternalError (err_toString e))), t')
    end.
Proof.
  intros Hm Ht Hsend Hok. rewrite (handler_truthy _ _ _ _ _ _ _ Hm Ht).
  unfold modelsToTry. cbn [try_models]. unfold bind at 1, try_model at 1, bind at 1.
  rewrite Hsend. unfold settle at 1. rewrite Hok. cbn [negb].
  change (PRIMARY_MODEL =? FALLBACK_MODEL)%string with false. cbn iota.
  unfold ret at 1, bind at 1.
  destruct (try_model NumberToString JSON_stringify w env prompt FALLBACK_MODEL t1)
    as [[[r|]|e] t']; reflexivity.
Qed.

(** The token exchange, step by step. *)
Lemma service_account_no_client (hdrs : list (string * string)) (t : trace) (e : Error) :
  getClient_outcome w (count is_getClient t) = Throw e ->
  service_account NumberToString w hdrs t = (Throw e, (t ++ [EGetClient])%list).
Proof.
  intros H. unfold service_account, bind, getClient. now rewrite H.
Qed.

Lemma service_account_no_token (hdrs : list (string * string)) (t : trace) (e : Error) :
  getClient_outcome w (count is_getClient t) = Ok tt ->
  getAccessToken_outcome w (count is_getAccessToken t) = Throw e ->
  service_account NumberToString w hdrs t
  = (Throw e, (t ++ [EGetClient; EGetAccessToken])%list).
Proof.
  intros Hc Ha. unfold service_account, bind, getClient, getAccessToken.
  rewrite Hc, count_app. change (count is_getAccessToken [EGetClient]) with 0.
  now rewrite Nat.add_0_r, Ha, <- app_assoc.
Qed.

Lemma service_account_token (hdrs : list (string * string)) (t : trace)
    (accessToken tok : value) (s : string) :
  getClient_outcome w (count is_getClient t) = Ok tt ->
  getAccessToken_outcome w (count is_getAccessToken t) = Ok accessToken ->
  member accessToken (KName "token") = Ok tok ->
  ToString NumberToString (or_else tok accessToken) = Ok s ->
  service_account NumberToString w hdrs t
  = (Ok (hdrs ++ [("Authorization", ("Bearer " ++ s)%string)])%list,
     (t ++ [EGetClient; EGetAccessToken])%list).
Proof.
  intros Hc Ha Hm Hs.
  unfold service_account, bind, getClient, getAccessToken, lift, ret.
  rewrite Hc, count_app. change (count is_getAccessToken [EGetClient]) with 0.
  now rewrite Nat.add_0_r, Ha, Hm, Hs, <- app_assoc.
Qed.

End HandlerAnswers.

(** What one pass costs at most. *)
Lemma attempt_trace_counts JSON_stringify env prompt modelName new :
  attempt_trace JSON_stringify env prompt modelName new ->
  count is_fetch new <= 7 /\
  List.length (delays new) <= 6 /\
  count is_getClient new <= 1 /\
  count is_getAccessToken new <= 1.
Proof.
  intros A. destruct (attempt_trace_delays _ _ _ _ _ A) as (k0 & Hk0 & Hd).
  assert (Hlen : forall d k, List.length (schedule d k) = k).
  { intros d k; revert d; induction k as [|k IH]; intros d; cbn;
      [reflexivity|now rewrite IH]. }
  rewrite Hd, Hlen.
  destruct A as [k Hk Hlt|Hk|Hk|s k Hk Hlt].
  - destruct (count_no_auth_retry_events
                (modelEndpoint modelName ++ "?key=" ++ env_text (GOOGLE_API_KEY env))
                (request_init JSON_stringify [CONTENT_TYPE] prompt) k INITIAL_DELAY)
      as [H1 H2].
    rewrite !count_app, count_fetch_retry_events, H1, H2. cbn. lia.
  - cbn. lia.
  - cbn. lia.
  - destruct (count_no_auth_retry_events (modelEndpoint modelName)
                (request_init JSON_stringify (bearer_headers s) prompt) k INITIAL_DELAY)
      as [H1 H2].
    rewrite !count_app, count_fetch_retry_events, H1, H2. cbn. lia.
Qed.

(** Every fetch of a pass is a POST whose first header is the JSON content
    type. *)
Lemma attempt_trace_requests JSON_stringify env prompt modelName new url init :
  attempt_trace JSON_stringify env prompt modelName new ->
  In (EFetch url init) new ->
  method init = "POST" /\ hd_error (headers init) = Some CONTENT_TYPE.
Proof.
  intros [k Hk Hlt|Hk|Hk|s k Hk Hlt] Hin.
  - apply in_app_or in Hin. destruct Hin as [Hin|[Hin|[]]].
    + apply In_fetch_retry_events in Hin. destruct Hin as [_ ->]. split; reflexivity.
    + injection Hin as _ <-. split; reflexivity.
  - destruct Hin as [Hin|[]]; discriminate.
  - destruct Hin as [Hin|[Hin|[]]]; discriminate.
  - cbn [app] in Hin. destruct Hin as [Hin|[Hin|Hin]]; try discriminate.
    apply in_app_or in Hin. destruct Hin as [Hin|[Hin|[]]].
    + apply In_fetch_retry_events in Hin. destruct Hin as [_ ->]. split; reflexivity.
    + injection Hin as _ <-. split; reflexivity.
Qed.

(** X4: every request is answered.  Whatever the request body, the
    configuration and the behaviour of the network and of the auth client,
    the handler sends exactly one of its four documents: 400 with
    [{ error: "Missing prompt" }], 200 with [{ raw, text }] where [text] is a
    string or [null], 502 with [{ error, status, body }], or 500 with
    [{ error: "internal error", details }].  The model loop never runs off
    its end without an answer. *)
Theorem handler_always_answers (NumberToString : float -> string)
    (JSON_stringify : value -> string) (w : World) (env : Env)
    (reqBody : value) (t : trace) :
  exists r,
    fst (handler NumberToString JSON_stringify w env reqBody t) = Some r /\
    answer_shape r.
Proof.
  unfold handler, generate, bind at 1, lift.
  destruct (member reqBody (KName "prompt")) as [prompt|e].
  - destruct (truthy prompt); cbn [negb].
    + destruct (try_models_answers NumberToString JSON_stringify w env prompt t)
        as (x & t' & -> & Hx).
      destruct x as [[r|]|e]; [|destruct Hx|].
      * exists r. split; [reflexivity|exact Hx].
      * eexists. split; [reflexivity|].
        right; right; right. split; [reflexivity|eexists; reflexivity].
    + eexists. split; [reflexivity|]. left. split; reflexivity.
  - eexists. split; [reflexivity|].
    right; right; right. split; [reflexivity|eexists; reflexivity].
Qed.

(** X5: a 2xx answer for the primary model ends the request.  When the
    prompt is truthy and the send for the primary model returns a 2xx
    response whose body parses, the handler answers 200 with the parsed body
    as [raw] and the extracted text, and its trace is the one that send
    left: every fetch went to the primary model's url and nothing was done
    for the fallback model. *)
Theorem primary_success_ends_request (NumberToString : float -> string)
    (JSON_stringify : value -> string) (w : World) (env : Env)
    (reqBody prompt : value) (t t1 : trace) (g : Response) (json : value) :
  member reqBody (KName "prompt") = Ok prompt ->
  truthy prompt = true ->
  send_model NumberToString JSON_stringify w env prompt PRIMARY_MODEL t
  = (Ok (Some g), t1) ->
  ok g = true ->
  json_outcome g = Ok json ->
  handler NumberToString JSON_stringify w env reqBody t
  = (Some (mkHttp 200 (Generated json (extract_text NumberToString json))), t1) /\
  exists new,
    t1 = (t ++ new)%list /\
    forall url init,
      In (EFetch url init) new ->
      url = modelEndpoint PRIMARY_MODEL \/
      url = modelEndpoint PRIMARY_MODEL ++ "?key=" ++ env_text (GOOGLE_API_KEY env).
Proof.
  intros Hm Ht Hsend Hok Hj. split.
  - rewrite (handler_primary_response _ _ _ _ _ _ _ _ _ Hm Ht Hsend Hok).
    now rewrite Hj.
  - destruct (send_model_trace NumberToString JSON_stringify w env prompt
                PRIMARY_MODEL t) as (new & Hs & A).
    rewrite Hsend in Hs. cbn [snd] in Hs. exists new. split; [exact Hs|].
    intros url init Hin. exact (proj2 (attempt_trace_fetches _ _ _ _ _ _ _ A Hin)).
Qed.

Lemma primary_success_ends_request_witness :
  handler Samples.NumberToString Samples.JSON_stringify Samples.always_greeting
    Samples.with_key Samples.hi_request []
  = (Some (mkHttp 200 (Generated Samples.hello_json (VStr "hello"))),
     [EFetch (modelEndpoint PRIMARY_MODEL ++ "?key=K3Y")
        (request_init Samples.JSON_stringify [CONTENT_TYPE] (VStr "hi"))]).
Proof.
  exact (proj1 (primary_success_ends_request Samples.NumberToString
                  Samples.JSON_stringify Samples.always_greeting Samples.with_key
                  Samples.hi_request (VStr "hi") []
                  [EFetch (modelEndpoint PRIMARY_MODEL ++ "?key=K3Y")
                     (request_init Samples.JSON_stringify [CONTENT_TYPE] (VStr "hi"))]
                  Samples.greeting Samples.hello_json
                  eq_refl eq_refl eq_refl eq_refl eq_refl)).
Defined.

(** X6: a 2xx response whose body does not parse is not a model failure.
    When [gresp.json()] rejects for the primary model's 2xx response, the
    rejection reaches the outer [catch]: the handler answers 500 with the
    error's text, and the fallback model is not tried (the trace is the one
    the primary's send left). *)
Theorem unparseable_success_is_internal_error (NumberToString : float -> string)
    (JSON_stringify : value -> string) (w : World) (env : Env)
    (reqBody prompt : value) (t t1 : trace) (g : Response) (e : Error) :
  member reqBody (KName "prompt") = Ok prompt ->
  truthy prompt = true ->
  send_model NumberToString JSON_stringify w env prompt PRIMARY_MODEL t
  = (Ok (Some g), t1) ->
  ok g = true ->
  json_outcome g = Throw e ->
  handler NumberToString JSON_stringify w env reqBody t
  = (Some (mkHttp 500 (InternalError (err_toString e))), t1).
Proof.
  intros Hm Ht Hsend Hok Hj.
  rewrite (handler_primary_response _ _ _ _ _ _ _ _ _ Hm Ht Hsend Hok).
  now rewrite Hj.
Qed.

Lemma unparseable_success_is_internal_error_witness :
  handler Samples.NumberToString Samples.JSON_stringify Samples.always_garbled
    Samples.with_key Samples.hi_request []
  = (Some (mkHttp 500 (InternalError "SyntaxError: Unexpected token <")),
     [EFetch (modelEndpoint PRIMARY_MODEL ++ "?key=K3Y")
        (request_init Samples.JSON_stringify [CONTENT_TYPE] (VStr "hi"))]).
Proof.
  exact (unparseable_success_is_internal_error Samples.NumberToString
           Samples.JSON_stringify Samples.always_garbled Samples.with_key
           Samples.hi_request (VStr "hi") []
           [EFetch (modelEndpoint PRIMARY_MODEL ++ "?key=K3Y")
              (request_init Samples.JSON_stringify [CONTENT_TYPE] (VStr "hi"))]
           Samples.garbled (mkError "SyntaxError" "Unexpected token <")
           eq_refl eq_refl eq_refl eq_refl eq_refl).
Defined.

(** X7: the fallback model can save the request.  When the send for the
    primary model ends with a response that is not 2xx and the send for the
    fallback model returns a 2xx response whose body parses, the handler
    answers 200 with the fallback's parsed body and its extracted text;
    nothing of the primary's failure shows in the answer. *)
Theorem fallback_success_answers_200 (NumberToString : float -> string)
    (JSON_stringify : value -> string) (w : World) (env : Env)
    (reqBody prompt : value) (t t1 t2 : trace) (r1 r2 : Response) (json : value) :
  member reqBody (KName "prompt") = Ok prompt ->
  truthy prompt = true ->
  send_model NumberToString JSON_stringify w env prompt PRIMARY_MODEL t
  = (Ok (Some r1), t1) ->
  ok r1 = false ->
  send_model NumberToString JSON_stringify w env prompt FALLBACK_MODEL t1
  = (Ok (Some r2), t2) ->
  ok r2 = true ->
  json_outcome r2 = Ok json ->
  handler NumberToString JSON_stringify w env reqBody t
  = (Some (mkHttp 200 (Generated json (extract_text NumberToString json))), t2).
Proof.
  intros Hm Ht Hs1 Hok1 Hs2 Hok2 Hj.
  rewrite (handler_after_primary_failure _ _ _ _ _ _ _ _ _ Hm Ht Hs1 Hok1).
  unfold try_model, bind. rewrite Hs2.
  now rewrite (settle_success _ _ _ _ _ Hok2 Hj).
Qed.

Lemma fallback_success_answers_200_witness :
  handler Samples.NumberToString Samples.JSON_stringify Samples.fallback_works
    Samples.with_key Samples.hi_request []
  = (Some (mkHttp 200 (Generated Samples.hello_json (VStr "hello"))),
     [EFetch (modelEndpoint PRIMARY_MODEL ++ "?key=K3Y")
        (request_init Samples.JSON_stringify [CONTENT_TYPE] (VStr "hi"));
      EFetch (modelEndpoint FALLBACK_MODEL ++ "?key=K3Y")
        (request_init Samples.JSON_stringify [CONTENT_TYPE] (VStr "hi"))]).
Proof.
  exact (fallback_success_answers_200 Samples.NumberToString
           Samples.JSON_stringify Samples.fallback_works Samples.with_key
           Samples.hi_request (VStr "hi") []
           [EFetch (modelEndpoint PRIMARY_MODEL ++ "?key=K3Y")
              (request_init Samples.JSON_stringify [CONTENT_TYPE] (VStr "hi"))]
           [EFetch (modelEndpoint PRIMARY_MODEL ++ "?key=K3Y")
              (request_init Samples.JSON_stringify [CONTENT_TYPE] (VStr "hi"));
            EFetch (modelEndpoint FALLBACK_MODEL ++ "?key=K3Y")
              (request_init Samples.JSON_stringify [CONTENT_TYPE] (VStr "hi"))]
           Samples.not_found Samples.greeting Samples.hello_json
           eq_refl eq_refl eq_refl eq_refl eq_refl eq_refl eq_refl).
Defined.

(** X8: what one request can cost.  Whatever happens, one run of the
    handler makes at most 14 fetches (7 per model), waits at most 12 times,
    and calls [getClient] and [getAccessToken] at most twice each (once per
    model tried). *)
Theorem request_cost_is_bounded (NumberToString : float -> string)
    (JSON_stringify : value -> string) (w : World) (env : Env)
    (reqBody : value) (t : trace) :
  exists new,
    snd (handler NumberToString JSON_stringify w env reqBody t) = (t ++ new)%list /\
    count is_fetch new <= 14 /\
    List.length (delays new) <= 12 /\
    count is_getClient new <= 2 /\
    count is_getAccessToken new <= 2.
Proof.
  destruct (handler_run NumberToString JSON_stringify w env reqBody t)
    as (new & Hs & Hshape).
  exists new. split; [exact Hs|].
  destruct Hshape as [->|(p & _ & _ & [A|(n1 & n2 & -> & A1 & A2)])].
  - cbn. lia.
  - pose proof (attempt_trace_counts _ _ _ _ _ A). lia.
  - pose proof (attempt_trace_counts _ _ _ _ _ A1).
    pose proof (attempt_trace_counts _ _ _ _ _ A2).
    rewrite !count_app, delays_app, length_app. lia.
Qed.

(** X9: without an API key a failing auth client fails the request before
    any fetch.  When the prompt is truthy and no API key is set, an error
    thrown by [getClient], or by [getAccessToken] after [getClient]
    succeeded, is answered 500 with that error's text; the trace holds the
    auth calls made and no fetch, and the fallback model is not tried. *)
Theorem auth_failure_is_internal_error (NumberToString : float -> string)
    (JSON_stringify : value -> string) (w : World) (env : Env)
    (reqBody prompt : value) (t : trace) (e : Error) :
  member reqBody (KName "prompt") = Ok prompt ->
  truthy prompt = true ->
  GOOGLE_API_KEY env = None \/ GOOGLE_API_KEY env = Some "" ->
  (getClient_outcome w (count is_getClient t) = Throw e ->
   handler NumberToString JSON_stringify w env reqBody t
   = (Some (mkHttp 500 (InternalError (err_toString e))), (t ++ [EGetClient])%list)) /\
  (getClient_outcome w (count is_getClient t) = Ok tt ->
   getAccessToken_outcome w (count is_getAccessToken t) = Throw e ->
   handler NumberToString JSON_stringify w env reqBody t
   = (Some (mkHttp 500 (InternalError (err_toString e))),
      (t ++ [EGetClient; EGetAccessToken])%list)).
Proof.
  intros Hm Ht Hno. pose proof (env_truthy_no_key env Hno) as Hf.
  assert (Hsend : forall t',
             service_account NumberToString w [CONTENT_TYPE] t = (Throw e, t') ->
             handler NumberToString JSON_stringify w env reqBody t
             = (Some (mkHttp 500 (InternalError (err_toString e))), t')).
  { intros t' Hsa. rewrite (handler_truthy _ _ _ _ _ _ _ Hm Ht). unfold modelsToTry.
    rewrite (try_models_throw _ _ _ _ _ _ _ _ t' e); [reflexivity|].
    unfold send_model, bind. rewrite (credentials_without_key _ _ _ _ _ Hf).
    now rewrite Hsa. }
  split.
  - intros Hc. apply Hsend. now apply service_account_no_client.
  - intros Hc Ha. apply Hsend. now apply service_account_no_token.
Qed.

Lemma auth_failure_is_internal_error_witness :
  handler Samples.NumberToString Samples.JSON_stringify Samples.no_client
    Samples.without_key Samples.hi_request []
  = (Some (mkHttp 500
             (InternalError "Error: Could not load the default credentials")),
     [EGetClient]) /\
  handler Samples.NumberToString Samples.JSON_stringify Samples.no_token
    Samples.without_key Samples.hi_request []
  = (Some (mkHttp 500
             (InternalError "Error: Could not load the default credentials")),
     [EGetClient; EGetAccessToken]).
Proof.
  split.
  - exact (proj1 (auth_failure_is_internal_error Samples.NumberToString
                    Samples.JSON_stringify Samples.no_client Samples.without_key
                    Samples.hi_request (VStr "hi") [] Samples.denied
                    eq_refl eq_refl (or_introl eq_refl)) eq_refl).
  - exact (proj2 (auth_failure_is_internal_error Samples.NumberToString
                    Samples.JSON_stringify Samples.no_token Samples.without_key
                    Samples.hi_request (VStr "hi") [] Samples.denied
                    eq_refl eq_refl (or_introl eq_refl)) eq_refl eq_refl).
Defined.

(** X10: the shapes of access token the handler accepts.  Without an API
    key and with a working auth client, the bearer header is built from
    [accessToken.token || accessToken]: (1) an object with a non-empty string
    [token] gives [Bearer <token>]; (2) a plain string gives [Bearer <string>];
    (3) an object without [token] (and without a [toString] field of its
    own) gives the header [Bearer [object Object]]; (4) [null] or
    [undefined] throws at [accessToken.token], after both auth calls. *)
Theorem access_token_shapes (NumberToString : float -> string) (w : World)
    (env : Env) (modelName : string) (t : trace) (accessToken : value) :
  GOOGLE_API_KEY env = None \/ GOOGLE_API_KEY env = Some "" ->
  getClient_outcome w (count is_getClient t) = Ok tt ->
  getAccessToken_outcome w (count is_getAccessToken t) = Ok accessToken ->
  (forall fs s,
      accessToken = VObj fs -> lookup "token" fs = Some (VStr s) -> s <> "" ->
      credentials NumberToString w env modelName t
      = (Ok (modelEndpoint modelName, bearer_headers s),
         (t ++ [EGetClient; EGetAccessToken])%list)) /\
  (forall s,
      accessToken = VStr s ->
      credentials NumberToString w env modelName t
      = (Ok (modelEndpoint modelName, bearer_headers s),
         (t ++ [EGetClient; EGetAccessToken])%list)) /\
  (forall fs,
      accessToken = VObj fs -> lookup "token" fs = None ->
      lookup "toString" fs = None ->
      credentials NumberToString w env modelName t
      = (Ok (modelEndpoint modelName, bearer_headers "[object Object]"),
         (t ++ [EGetClient; EGetAccessToken])%list)) /\
  (nullish accessToken = true ->
   exists e,
     credentials NumberToString w env modelName t
     = (Throw e, (t ++ [EGetClient; EGetAccessToken])%list)).
Proof.
  intros Hno Hc Ha. pose proof (env_truthy_no_key env Hno) as Hf.
  rewrite (credentials_without_key _ _ _ _ _ Hf).
  split; [|split; [|split]].
  - intros fs s -> Hl Hne.
    rewrite (service_account_token NumberToString w _ t (VObj fs) (VStr s) s Hc Ha).
    + reflexivity.
    + unfold member. cbn [nullish Get]. now rewrite (field_lookup _ _ _ Hl).
    + rewrite or_else_truthy; [reflexivity|].
      cbn. apply negb_true_iff, String.eqb_neq. exact Hne.
  - intros s ->.
    rewrite (service_account_token NumberToString w _ t (VStr s) VUndefined s Hc Ha);
      reflexivity.
  - intros fs -> Hl Hts.
    rewrite (service_account_token NumberToString w _ t (VObj fs) VUndefined
               "[object Object]" Hc Ha).
    + reflexivity.
    + unfold member. cbn [nullish Get]. unfold field. now rewrite Hl.
    + cbn. now rewrite Hts.
  - intros Hn.
    unfold service_account, bind, getClient, getAccessToken, lift.
    rewrite Hc, count_app. change (count is_getAccessToken [EGetClient]) with 0.
    rewrite Nat.add_0_r, Ha, <- app_assoc. unfold member. rewrite Hn.
    eexists. reflexivity.
Qed.

Lemma access_token_shapes_witness :
  credentials Samples.NumberToString Samples.always_greeting Samples.without_key
    PRIMARY_MODEL []
  = (Ok (modelEndpoint PRIMARY_MODEL, bearer_headers "ya29"),
     [EGetClient; EGetAccessToken]) /\
  credentials Samples.NumberToString Samples.plain_token Samples.without_key
    PRIMARY_MODEL []
  = (Ok (modelEndpoint PRIMARY_MODEL, bearer_headers "ya29"),
     [EGetClient; EGetAccessToken]).
Proof.
  split.
  - destruct (access_token_shapes Samples.NumberToString Samples.always_greeting
                Samples.without_key PRIMARY_MODEL [] Samples.access_token
                (or_introl eq_refl) eq_refl eq_refl) as (H & _).
    apply (H [("token", VStr "ya29")] "ya29" eq_refl eq_refl). discriminate.
  - destruct (access_token_shapes Samples.NumberToString Samples.plain_token
                Samples.without_key PRIMARY_MODEL [] (VStr "ya29")
                (or_introl eq_refl) eq_refl eq_refl) as (_ & H & _).
    apply (H "ya29" eq_refl).
Defined.

(** X11: every upstream request is a JSON POST to one of the two model
    endpoints.  In any run of the handler, each fetch uses the method POST,
    has [Content-Type: application/json] as its first header, and goes to
    the [generateContent] endpoint of the primary or of the fallback model,
    either as it is or with [?key=<GOOGLE_API_KEY>] appended. *)
Theorem upstream_requests_are_json_posts (NumberToString : float -> string)
    (JSON_stringify : value -> string) (w : World) (env : Env)
    (reqBody : value) (t : trace) :
  exists new,
    snd (handler NumberToString JSON_stringify w env reqBody t) = (t ++ new)%list /\
    forall url init,
      In (EFetch url init) new ->
      method init = "POST" /\
      hd_error (headers init) = Some ("Content-Type", "application/json") /\
      exists modelName,
        In modelName [PRIMARY_MODEL; FALLBACK_MODEL] /\
        (url = modelEndpoint modelName \/
         url = modelEndpoint modelName ++ "?key=" ++ env_text (GOOGLE_API_KEY env)).
Proof.
  destruct (handler_run NumberToString JSON_stringify w env reqBody t)
    as (new & Hs & Hshape).
  exists new. split; [exact Hs|]. intros url init Hin.
  destruct Hshape as [->|(p & _ & _ & [A|(n1 & n2 & -> & A1 & A2)])].
  - destruct Hin.
  - destruct (attempt_trace_requests _ _ _ _ _ _ _ A Hin) as [Hmeth Hhd].
    repeat split; [exact Hmeth|exact Hhd|].
    exists PRIMARY_MODEL. split; [now left|].
    exact (proj2 (attempt_trace_fetches _ _ _ _ _ _ _ A Hin)).
  - apply in_app_or in Hin. destruct Hin as [Hin|Hin].
    + destruct (attempt_trace_requests _ _ _ _ _ _ _ A1 Hin) as [Hmeth Hhd].
      repeat split; [exact Hmeth|exact Hhd|].
      exists PRIMARY_MODEL. split; [now left|].
      exact (proj2 (attempt_trace_fetches _ _ _ _ _ _ _ A1 Hin)).
    + destruct (attempt_trace_requests _ _ _ _ _ _ _ A2 Hin) as [Hmeth Hhd].
      repeat split; [exact Hmeth|exact Hhd|].
      exists FALLBACK_MODEL. split; [right; now left|].
      exact (proj2 (attempt_trace_fetches _ _ _ _ _ _ _ A2 Hin)).
Qed.

(** X12: request bodies that are not objects.  When [req.body] is
    [undefined] or [null] the destructuring throws, and the handler answers
    500 without touching the network; when it is a boolean, a number or an
    array it has no [prompt], and the handler answers 400. *)
Theorem non_object_bodies (NumberToString : float -> string)
    (JSON_stringify : value -> string) (w : World) (env : Env)
    (reqBody : value) (t : trace) :
  (nullish reqBody = true ->
   exists details,
     handler NumberToString JSON_stringify w env reqBody t
     = (Some (mkHttp 500 (InternalError details)), t)) /\
  ((exists b, reqBody = VBool b) \/ (exists n, reqBody = VNum n) \/
   (exists l, reqBody = VArr l) ->
   handler NumberToString JSON_stringify w env reqBody t
   = (Some (mkHttp 400 MissingPrompt), t)).
Proof.
  split.
  - intros Hn. unfold handler, generate, bind, lift, member. rewrite Hn.
    eexists. reflexivity.
  - intros [[b ->]|[[n ->]|[l ->]]];
      apply handler_falsy with (prompt := VUndefined); reflexivity.
Qed.

Lemma non_object_bodies_witness :
  (exists details,
      handler Samples.NumberToString Samples.JSON_stringify Samples.always_greeting
        Samples.with_key VUndefined []
      = (Some (mkHttp 500 (InternalError details)), [])) /\
  handler Samples.NumberToString Samples.JSON_stringify Samples.always_greeting
    Samples.with_key (VArr [VStr "hi"]) []
  = (Some (mkHttp 400 MissingPrompt), []).
Proof.
  split.
  - exact (proj1 (non_object_bodies Samples.NumberToString Samples.JSON_stringify
                    Samples.always_greeting Samples.with_key VUndefined [])
             eq_refl).
  - apply (proj2 (non_object_bodies Samples.NumberToString Samples.JSON_stringify
                    Samples.always_greeting Samples.with_key (VArr [VStr "hi"]) [])).
    right; right. exists [VStr "hi"]. reflexivity.
Defined.

(** X13: the first shape wins.  As soon as
    [candidates[0].content.parts] is truthy the extracted text depends on it
    alone: two bodies that agree on it get the same text, whatever their
    [content[0].parts] hold.  An empty array is truthy too: with
    [candidates[0].content.parts = []] the text is the empty string even when
    [content[0].parts] carries text. *)
Theorem first_shape_takes_precedence (NumberToString : float -> string)
    (json : value) :
  (truthy (candidates_parts json) = true ->
   forall json',
     candidates_parts json' = candidates_parts json ->
     extract_text NumberToString json' = extract_text NumberToString json) /\
  (candidates_parts json = VArr [] ->
   extract_text NumberToString json = VStr "").
Proof.
  split.
  - intros Ht json' Heq. unfold extract_text, extract_attempt, resolved_parts.
    rewrite Heq. rewrite !(or_else_truthy (candidates_parts json)) by exact Ht.
    reflexivity.
  - intros He. unfold extract_text, extract_attempt, resolved_parts.
    rewrite He. reflexivity.
Qed.

Lemma first_shape_takes_precedence_witness :
  extract_text Samples.NumberToString Samples.masked_json = VStr "".
Proof.
  exact (proj2 (first_shape_takes_precedence Samples.NumberToString
                  Samples.masked_json) eq_refl).
Defined.

(** ** Properties of prepareGoogleCreds *)

Lemma assoc_cons_same k v l : assoc k ((k, v) :: l) = Some v.
Proof. cbn. now rewrite String.eqb_refl. Qed.

Lemma assoc_cons_other k k' v l : k' <> k -> assoc k ((k', v) :: l) = assoc k l.
Proof. intros H. cbn. apply String.eqb_neq in H. now rewrite H. Qed.

(** X14: when [prepareGoogleCreds] returns a path.  It returns
    ["/tmp/google_service_account.json"] exactly when
    [GOOGLE_SERVICE_ACCOUNT_JSON] is set to a non-empty string and the write
    of that string to the path succeeds, and [null] otherwise.  When it
    returns the path, the file at that path holds the variable's value and
    [GOOGLE_APPLICATION_CREDENTIALS] is the path. *)
Theorem prepareGoogleCreds_result (disk : string -> string -> result unit)
    (p : Process) :
  (fst (prepareGoogleCreds disk p) = Some "/tmp/google_service_account.json" \/
   fst (prepareGoogleCreds disk p) = None) /\
  (fst (prepareGoogleCreds disk p) = Some "/tmp/google_service_account.json"
   <-> exists raw,
         getenv "GOOGLE_SERVICE_ACCOUNT_JSON" p = Some raw /\ raw <> "" /\
         disk "/tmp/google_service_account.json" raw = Ok tt) /\
  (forall raw,
      fst (prepareGoogleCreds disk p) <> None ->
      getenv "GOOGLE_SERVICE_ACCOUNT_JSON" p = Some raw ->
      readFile "/tmp/google_service_account.json" (snd (prepareGoogleCreds disk p))
      = Some raw /\
      getenv "GOOGLE_APPLICATION_CREDENTIALS" (snd (prepareGoogleCreds disk p))
      = Some "/tmp/google_service_account.json").
Proof.
  unfold prepareGoogleCreds, writeFileSync.
  destruct (getenv "GOOGLE_SERVICE_ACCOUNT_JSON" p) as [raw|] eqn:Hraw;
    cbn [env_truthy env_text negb].
  - destruct (raw =? "")%string eqn:Hempty; cbn [negb].
    + apply String.eqb_eq in Hempty. subst raw. cbn [fst snd].
      split; [now right|]. split.
      * split; [discriminate|]. intros (raw & H & Hne & _).
        injection H as <-. now elim Hne.
      * intros raw Hnn. now elim Hnn.
    + apply String.eqb_neq in Hempty.
      destruct (disk "/tmp/google_service_account.json" raw) as [[]|e] eqn:Hd;
        cbn [fst snd].
      * split; [now left|]. split.
        -- split; [|reflexivity]. intros _. exists raw. auto.
        -- intros raw' _ H. injection H as <-. split; reflexivity.
      * split; [now right|]. split.
        -- split; [discriminate|]. intros (raw' & H & _ & Hd').
           injection H as <-. congruence.
        -- intros raw' Hnn. now elim Hnn.
  - cbn [fst snd]. split; [now right|]. split.
    + split; [discriminate|]. intros (raw & H & _). discriminate H.
    + intros raw Hnn. now elim Hnn.
Qed.

Lemma prepareGoogleCreds_result_witness :
  readFile "/tmp/google_service_account.json"
    (snd (prepareGoogleCreds Samples.good_disk Samples.configured))
  = Some "{sa}" /\
  getenv "GOOGLE_APPLICATION_CREDENTIALS"
    (snd (prepareGoogleCreds Samples.good_disk Samples.configured))
  = Some "/tmp/google_service_account.json".
Proof.
  apply (proj2 (proj2 (prepareGoogleCreds_result Samples.good_disk
                         Samples.configured)) "{sa}").
  - discriminate.
  - reflexivity.
Defined.

(** X15: what [prepareGoogleCreds] leaves alone.  When it returns [null]
    (nothing configured, or the write failed) the environment is exactly as
    before: [GOOGLE_APPLICATION_CREDENTIALS] is not set by a failed run.  In
    every case, every variable other than [GOOGLE_APPLICATION_CREDENTIALS]
    (so [GOOGLE_SERVICE_ACCOUNT_JSON] too) and every file other than the one
    at the fixed path read as before. *)
Theorem prepareGoogleCreds_frame (disk : string -> string -> result unit)
    (p : Process) :
  (fst (prepareGoogleCreds disk p) = None ->
   vars (snd (prepareGoogleCreds disk p)) = vars p) /\
  (forall name,
      name <> "GOOGLE_APPLICATION_CREDENTIALS" ->
      getenv name (snd (prepareGoogleCreds disk p)) = getenv name p) /\
  (forall path,
      path <> "/tmp/google_service_account.json" ->
      readFile path (snd (prepareGoogleCreds disk p)) = readFile path p).
Proof.
  unfold prepareGoogleCreds, writeFileSync.
  destruct (negb (env_truthy (getenv "GOOGLE_SERVICE_ACCOUNT_JSON" p)));
    [cbn [fst snd]; auto|].
  destruct (disk "/tmp/google_service_account.json"
              (env_text (getenv "GOOGLE_SERVICE_ACCOUNT_JSON" p))) as [[]|e];
    cbn [fst snd]; [|auto].
  split; [discriminate|]. split.
  - intros name Hne. unfold getenv, setenv. cbn [vars].
    apply assoc_cons_other. congruence.
  - intros path Hne. unfold readFile, setenv. cbn [files].
    apply assoc_cons_other. congruence.
Qed.

Lemma prepareGoogleCreds_frame_witness :
  vars (snd (prepareGoogleCreds Samples.read_only_disk Samples.configured))
  = vars Samples.configured /\
  getenv "PORT" (snd (prepareGoogleCreds Samples.good_disk Samples.configured))
  = Some "8080" /\
  readFile "/tmp/other" (snd (prepareGoogleCreds Samples.good_disk Samples.configured))
  = Some "x".
Proof.
  split; [|split].
  - exact (proj1 (prepareGoogleCreds_frame Samples.read_only_disk
                    Samples.configured) eq_refl).
  - rewrite (proj1 (proj2 (prepareGoogleCreds_frame Samples.good_disk
                             Samples.configured)) "PORT"); [reflexivity|discriminate].
  - rewrite (proj2 (proj2 (prepareGoogleCreds_frame Samples.good_disk
                             Samples.configured)) "/tmp/other");
      [reflexivity|discriminate].
Defined.

(** X16: running [prepareGoogleCreds] again changes nothing that can be
    observed.  On the process a first run left, a second run (on a disk that
    behaves the same) returns the same value, and afterwards every variable
    reads as after the first run, and so does every file (the one at the
    fixed path when the first run wrote it; what a failed write leaves there
    is not modelled). *)
Theorem prepareGoogleCreds_idempotent (disk : string -> string -> result unit)
    (p : Process) :
  fst (prepareGoogleCreds disk (snd (prepareGoogleCreds disk p)))
  = fst (prepareGoogleCreds disk p) /\
  (forall name,
      getenv name (snd (prepareGoogleCreds disk (snd (prepareGoogleCreds disk p))))
      = getenv name (snd (prepareGoogleCreds disk p))) /\
  (forall path,
      fst (prepareGoogleCreds disk p) <> None \/
      path <> "/tmp/google_service_account.json" ->
      readFile path (snd (prepareGoogleCreds disk (snd (prepareGoogleCreds disk p))))
      = readFile path (snd (prepareGoogleCreds disk p))).
Proof.
  unfold prepareGoogleCreds, writeFileSync.
  destruct (negb (env_truthy (getenv "GOOGLE_SERVICE_ACCOUNT_JSON" p))) eqn:Hn;
    cbn [fst snd].
  - rewrite Hn. cbn [fst snd]. auto.
  - destruct (disk "/tmp/google_service_account.json"
                (env_text (getenv "GOOGLE_SERVICE_ACCOUNT_JSON" p))) as [[]|e] eqn:Hd;
      cbn [fst snd].
    + change (getenv "GOOGLE_SERVICE_ACCOUNT_JSON"
                (setenv "GOOGLE_APPLICATION_CREDENTIALS"
                   "/tmp/google_service_account.json"
                   (mkProcess (vars p)
                      (("/tmp/google_service_account.json",
                        env_text (getenv "GOOGLE_SERVICE_ACCOUNT_JSON" p))
                       :: files p))))
        with (getenv "GOOGLE_SERVICE_ACCOUNT_JSON" p).
      rewrite Hn, Hd. cbn [fst snd]. split; [reflexivity|]. split.
      * intros name. unfold getenv, setenv. cbn [vars assoc].
        destruct ("GOOGLE_APPLICATION_CREDENTIALS" =? name)%string; reflexivity.
      * intros path _. unfold readFile, setenv. cbn [files assoc].
        destruct ("/tmp/google_service_account.json" =? path)%string; reflexivity.
    + rewrite Hn, Hd. cbn [fst snd]. auto.
Qed.

(** ** Properties of modelEndpoint *)

Lemma list_ascii_of_string_append (a b : string) :
  list_ascii_of_string (a ++ b)
  = (list_ascii_of_string a ++ list_ascii_of_string b)%list.
Proof. induction a as [|c a IH]; cbn; [reflexivity|now rewrite IH]. Qed.

Lemma list_ascii_of_string_inj (a b : string) :
  list_ascii_of_string a = list_ascii_of_string b -> a = b.
Proof.
  intros H. rewrite <- (string_of_list_ascii_of_string a),
    <- (string_of_list_ascii_of_string b). now rewrite H.
Qed.

(** X17: endpoints tell models apart.  [modelEndpoint] is injective: two
    model names with the same endpoint url are the same name.  For the two
    models the handler tries, neither endpoint is a prefix of the other, so
    no url of one model (with or without a query string) is a url of the
    other. *)
Theorem modelEndpoint_injective (a b : string) :
  (modelEndpoint a = modelEndpoint b -> a = b) /\
  (forall suffix,
      String.prefix (modelEndpoint FALLBACK_MODEL)
        (modelEndpoint PRIMARY_MODEL ++ suffix) = false /\
      String.prefix (modelEndpoint PRIMARY_MODEL)
        (modelEndpoint FALLBACK_MODEL ++ suffix) = false).
Proof.
  split.
  - intros H. unfold modelEndpoint in H.
    apply (f_equal list_ascii_of_string) in H.
    rewrite !list_ascii_of_string_append in H.
    apply app_inv_head, app_inv_tail in H.
    now apply list_ascii_of_string_inj.
  - intros suffix. split; reflexivity.
Qed.

Lemma modelEndpoint_injective_witness :
  String.prefix (modelEndpoint FALLBACK_MODEL)
    (modelEndpoint PRIMARY_MODEL ++ "?key=K3Y") = false.
Proof.
  exact (proj1 (proj2 (modelEndpoint_injective PRIMARY_MODEL FALLBACK_MODEL)
                  "?key=K3Y")).
Defined.

(** ** The two models together *)

(** The last response is returned when every attempt was retried. *)
Lemma fetchWithRetry_exhausted_response (w : World) (url : string)
    (options : RequestInit) (retries : nat) (t : trace) (res : Response) :
  1 <= retries ->
  (forall i, i < retries - 1 -> retry_worthy (outcome_at w url options t i) = true) ->
  outcome_at w url options t (retries - 1) = Ok res ->
  fetchWithRetry w url options retries t
  = (Ok (Some res),
     (t ++ retry_events url options (retries - 1) INITIAL_DELAY
        ++ [EFetch url options])%list).
Proof.
  intros Hpos Hrun Hres.
  destruct (retry_loop_run w url options retries (retries - 1) 1 1
              INITIAL_DELAY t Hrun ltac:(lia)) as [d' Hd'].
  unfold fetchWithRetry.
  replace retries with (retries - 1 + 1) at 2 by lia. rewrite Hd'.
  replace (1 + (retries - 1)) with retries by lia.
  rewrite retry_loop_response with (res := res); [now rewrite <- app_assoc| |now right].
  rewrite count_app, count_fetch_retry_events. exact Hres.
Qed.

Lemma retryable_not_ok (res : Response) : In (status res) RETRYABLE -> ok res = false.
Proof.
  unfold ok. intros [H|[H|[H|[H|[H|[]]]]]]; rewrite <- H; reflexivity.
Qed.

(** X18: the worst case, end to end.  With an API key and a truthy prompt,
    when every fetch is answered with a retryable status, the handler makes
    seven fetches to the primary model's url and then seven to the fallback
    model's, with six waits of 600, 600 * 1.8, ... inside each run of seven,
    and answers 502 with the status and body of the fourteenth response. *)
Theorem both_models_exhausted (NumberToString : float -> string)
    (JSON_stringify : value -> string) (w : World) (env : Env)
    (reqBody prompt : value) (t : trace) (key : string) :
  member reqBody (KName "prompt") = Ok prompt ->
  truthy prompt = true ->
  GOOGLE_API_KEY env = Some key ->
  key <> "" ->
  (forall i url init, exists res,
      fetch_outcome w i url init = Ok res /\ In (status res) RETRYABLE) ->
  exists last,
    fetch_outcome w (count is_fetch t + 13)
      (modelEndpoint FALLBACK_MODEL ++ "?key=" ++ key)
      (request_init JSON_stringify [CONTENT_TYPE] prompt) = Ok last /\
    handler NumberToString JSON_stringify w env reqBody t
    = (Some (mkHttp 502 (UpstreamError (status last) (text_or_empty last))),
       (t ++ (retry_events (modelEndpoint PRIMARY_MODEL ++ "?key=" ++ key)
                (request_init JSON_stringify [CONTENT_TYPE] prompt) 6 INITIAL_DELAY
              ++ [EFetch (modelEndpoint PRIMARY_MODEL ++ "?key=" ++ key)
                    (request_init JSON_stringify [CONTENT_TYPE] prompt)])
          ++ (retry_events (modelEndpoint FALLBACK_MODEL ++ "?key=" ++ key)
                (request_init JSON_stringify [CONTENT_TYPE] prompt) 6 INITIAL_DELAY
              ++ [EFetch (modelEndpoint FALLBACK_MODEL ++ "?key=" ++ key)
                    (request_init JSON_stringify [CONTENT_TYPE] prompt)]))%list).
Proof.
  intros Hm Ht Hkey Hne Hall.
  destruct (env_truthy_key env key Hkey Hne) as [Hk Htext].
  set (init := request_init JSON_stringify [CONTENT_TYPE] prompt).
  set (urlP := (modelEndpoint PRIMARY_MODEL ++ "?key=" ++ key)%string).
  set (urlF := (modelEndpoint FALLBACK_MODEL ++ "?key=" ++ key)%string).
  assert (Hsend : forall m t0,
             exists res,
               outcome_at w (modelEndpoint m ++ "?key=" ++ key) init t0 6 = Ok res /\
               In (status res) RETRYABLE /\
               send_model NumberToString JSON_stringify w env prompt m t0
               = (Ok (Some res),
                  (t0 ++ retry_events (modelEndpoint m ++ "?key=" ++ key) init 6
                           INITIAL_DELAY
                      ++ [EFetch (modelEndpoint m ++ "?key=" ++ key) init])%list)).
  { intros m t0.
    destruct (Hall (count is_fetch t0 + 6) (modelEndpoint m ++ "?key=" ++ key)%string
                init) as (res & Hres & Hin).
    exists res. split; [exact Hres|]. split; [exact Hin|].
    unfold send_model, bind. rewrite (credentials_with_key _ _ _ _ _ Hk), Htext.
    cbn [fst snd].
    apply (fetchWithRetry_exhausted_response w _ init 7 t0 res); [lia| |exact Hres].
    intros i _. unfold outcome_at.
    destruct (Hall (count is_fetch t0 + i) (modelEndpoint m ++ "?key=" ++ key)%string
                init) as (r & -> & Hr).
    now apply includes_In. }
  destruct (Hsend PRIMARY_MODEL t) as (r1 & _ & Hin1 & Hs1).
  destruct (Hsend FALLBACK_MODEL
              (t ++ retry_events urlP init 6 INITIAL_DELAY ++ [EFetch urlP init])%list)
    as (r2 & Hr2 & Hin2 & Hs2).
  subst init urlP urlF. exists r2. split.
  - unfold outcome_at in Hr2.
    rewrite !count_app, count_fetch_retry_events in Hr2.
    cbn [count filter is_fetch List.length] in Hr2.
    replace (count is_fetch t + (6 + 1) + 6) with (count is_fetch t + 13) in Hr2 by lia.
    exact Hr2.
  - rewrite (handler_after_primary_failure _ _ _ _ _ _ _ _ _ Hm Ht Hs1
               (retryable_not_ok _ Hin1)).
    unfold try_model, bind. rewrite Hs2. unfold settle.
    rewrite (retryable_not_ok _ Hin2). cbn [negb].
    change (FALLBACK_MODEL =? FALLBACK_MODEL)%string with true. cbn iota.
    unfold ret. now rewrite <- !app_assoc.
Qed.

Lemma both_models_exhausted_witness :
  exists last,
    fetch_outcome Samples.always_busy 13
      (modelEndpoint FALLBACK_MODEL ++ "?key=" ++ "K3Y")
      (request_init Samples.JSON_stringify [CONTENT_TYPE] (VStr "hi")) = Ok last /\
    handler Samples.NumberToString Samples.JSON_stringify Samples.always_busy
      Samples.with_key Samples.hi_request []
    = (Some (mkHttp 502 (UpstreamError (status last) (text_or_empty last))),
       ([] ++ (retry_events (modelEndpoint PRIMARY_MODEL ++ "?key=" ++ "K3Y")
                 (request_init Samples.JSON_stringify [CONTENT_TYPE] (VStr "hi")) 6
                 INITIAL_DELAY
               ++ [EFetch (modelEndpoint PRIMARY_MODEL ++ "?key=" ++ "K3Y")
                     (request_init Samples.JSON_stringify [CONTENT_TYPE] (VStr "hi"))])
           ++ (retry_events (modelEndpoint FALLBACK_MODEL ++ "?key=" ++ "K3Y")
                 (request_init Samples.JSON_stringify [CONTENT_TYPE] (VStr "hi")) 6
                 INITIAL_DELAY
               ++ [EFetch (modelEndpoint FALLBACK_MODEL ++ "?key=" ++ "K3Y")
                     (request_init Samples.JSON_stringify [CONTENT_TYPE]
                        (VStr "hi"))]))%list).
Proof.
  apply (both_models_exhausted Samples.NumberToString Samples.JSON_stringify
           Samples.always_busy Samples.with_key Samples.hi_request (VStr "hi") []
           "K3Y" eq_refl eq_refl eq_refl).
  - discriminate.
  - intros i url init. exists Samples.busy. split; [reflexivity|].
    right; right; right; left; reflexivity.
Defined.

(** X19: the primary model is asked first.  For a truthy prompt the first
    thing the handler does is the start of the primary model's pass: with an
    API key, a fetch of the primary model's keyed url; without one, the
    [getClient] call. *)
Theorem primary_model_is_tried_first (NumberToString : float -> string)
    (JSON_stringify : value -> string) (w : World) (env : Env)
    (reqBody prompt : value) (t : trace) :
  member reqBody (KName "prompt") = Ok prompt ->
  truthy prompt = true ->
  exists rest,
    snd (handler NumberToString JSON_stringify w env reqBody t)
    = (t ++ (if env_truthy (GOOGLE_API_KEY env)
             then EFetch (modelEndpoint PRIMARY_MODEL ++ "?key="
                          ++ env_text (GOOGLE_API_KEY env))
                    (request_init JSON_stringify [CONTENT_TYPE] prompt)
             else EGetClient) :: rest)%list.
Proof.
  intros Hm Ht.
  destruct (handler_run_truthy NumberToString JSON_stringify w env _ _ t Hm Ht)
    as (new & -> & Hshape).
  assert (Hfirst : forall n,
             attempt_trace JSON_stringify env prompt PRIMARY_MODEL n ->
             exists rest,
               n = (if env_truthy (GOOGLE_API_KEY env)
                    then EFetch (modelEndpoint PRIMARY_MODEL ++ "?key="
                                 ++ env_text (GOOGLE_API_KEY env))
                           (request_init JSON_stringify [CONTENT_TYPE] prompt)
                    else EGetClient) :: rest).
  { intros n [k Hk Hlt|Hk|Hk|s k Hk Hlt]; rewrite Hk.
    - destruct k as [|k]; eexists; reflexivity.
    - eexists; reflexivity.
    - eexists; reflexivity.
    - eexists; reflexivity. }
  destruct Hshape as [A|(n1 & n2 & -> & A1 & _)].
  - destruct (Hfirst _ A) as [rest ->]. now exists rest.
  - destruct (Hfirst _ A1) as [rest ->]. exists (rest ++ n2)%list. reflexivity.
Qed.

Lemma primary_model_is_tried_first_witness :
  exists rest,
    snd (handler Samples.NumberToString Samples.JSON_stringify Samples.fallback_works
           Samples.without_key Samples.hi_request [])
    = ([] ++ EGetClient :: rest)%list.
Proof.
  exact (primary_model_is_tried_first Samples.NumberToString Samples.JSON_stringify
           Samples.fallback_works Samples.without_key Samples.hi_request (VStr "hi")
           [] eq_refl eq_refl).
Defined.
